(** * Launchables notebooks: data preparation and prompt formatting

    A shallow embedding of the Python code cells of
    - [mistral-finetune-nemo.ipynb]  (PubMedQA to JSON-lines conversion),
    - [mixtral-finetune-own-data.ipynb] (prompt formatting, tokenisation,
      LoRA and trainer configuration),
    - [biomistral.ipynb] (a single generation call),
    followed by the properties proved about them.

    The notebooks are dynamically typed.  Values are therefore modelled by
    one type [value] of everything [json.load] can return, Python exceptions
    by a [result] type, and the files read and written by a finite map from
    paths to contents.  Calls into third-party libraries are operations of
    the type classes [Runtime], [Tokenizer], [Training] and [Generation]. *)

From Stdlib Require Import ZArith List Ascii String DecimalString.
From Stdlib Require Import Floats.SpecFloat.
From stdpp Require Import base gmap strings list.

(** ** Python values, exceptions and built-ins *)

Module Py.

(** What [json.load] returns: [None], booleans, integers, floats, strings,
    lists and insertion-ordered dictionaries with string keys.  A [str] is a
    [string] whose characters are read as code points below 256. *)
#[local] Unset Elimination Schemes.
Inductive value : Type :=
| VNone
| VBool (b : bool)
| VInt (n : Z)
| VFloat (x : spec_float)
| VStr (s : string)
| VList (items : list value)
| VDict (entries : list (string * value)).
#[local] Set Elimination Schemes.

(** Structural induction on values, through the lists they nest. *)
Section ValueInduction.
Variable P : value -> Prop.
Hypothesis HNone : P VNone.
Hypothesis HBool : forall b, P (VBool b).
Hypothesis HInt : forall n, P (VInt n).
Hypothesis HFloat : forall x, P (VFloat x).
Hypothesis HStr : forall s, P (VStr s).
Hypothesis HList : forall items, Forall P items -> P (VList items).
Hypothesis HDict : forall entries, Forall (fun kv => P (snd kv)) entries -> P (VDict entries).

Fixpoint value_ind (v : value) : P v :=
  match v with
  | VNone => HNone
  | VBool b => HBool b
  | VInt n => HInt n
  | VFloat x => HFloat x
  | VStr s => HStr s
  | VList items =>
      HList items
        ((fix all (l : list value) : Forall P l :=
            match l with
            | [] => List.Forall_nil P
            | x :: l' => List.Forall_cons P x l' (value_ind x) (all l')
            end) items)
  | VDict entries =>
      HDict entries
        ((fix all (d : list (string * value)) : Forall (fun kv => P (snd kv)) d :=
            match d with
            | [] => List.Forall_nil _
            | kv :: d' => List.Forall_cons (fun kv => P (snd kv)) kv d' (value_ind (snd kv)) (all d')
            end) entries)
  end.
End ValueInduction.

(** The exceptions the modelled code can raise. *)
Inductive exn : Type :=
| KeyError (key : value)
| IndexError
| TypeError
| AttributeError
| FileNotFoundError
| JSONDecodeError
| OtherError (class_name : string).

Inductive result (A : Type) : Type :=
| OK (a : A)
| Raise (e : exn).
Arguments OK {A} a.
Arguments Raise {A} e.

(** Sequencing: an exception raised by [m] propagates.  With this instance
    [x ← m; k] is stdpp's notation for [m ≫= λ x, k]. *)
#[global] Instance result_bind : MBind result :=
  fun A B (k : A -> result B) (m : result A) =>
    match m with
    | OK a => k a
    | Raise e => Raise e
    end.

(** The line feed, written ["\n"] in the notebooks. *)
Definition nl : string := String "010" EmptyString.

(** First binding of a key in an insertion-ordered dictionary. *)
Fixpoint assoc {A : Type} (k : string) (d : list (string * A)) : option A :=
  match d with
  | [] => None
  | (k', v) :: d' => if String.eqb k' k then Some v else assoc k d'
  end.

(** [c[k]] for a string key [k]. *)
Definition getitem_str (c : value) (k : string) : result value :=
  match c with
  | VDict d =>
      match assoc k d with
      | Some v => OK v
      | None => Raise (KeyError (VStr k))
      end
  | _ => Raise TypeError
  end.

(** [c[i]] for a non-negative integer [i].  Dictionaries that come from JSON
    have string keys only, so an integer key is never found. *)
Definition getitem_int (c : value) (i : nat) : result value :=
  match c with
  | VList l =>
      match l !! i with
      | Some v => OK v
      | None => Raise IndexError
      end
  | VStr s =>
      match String.get i s with
      | Some ch => OK (VStr (String ch EmptyString))
      | None => Raise IndexError
      end
  | VDict _ => Raise (KeyError (VInt (Z.of_nat i)))
  | _ => Raise TypeError
  end.

(** The items a [for] loop sees: list elements, the characters of a string,
    the keys of a dictionary. *)
Definition py_iter (v : value) : result (list value) :=
  match v with
  | VList l => OK l
  | VStr s => OK (map (fun ch => VStr (String ch EmptyString)) (list_ascii_of_string s))
  | VDict d => OK (map (fun kv => VStr (fst kv)) d)
  | _ => Raise TypeError
  end.

(** [d.keys()]. *)
Definition py_keys (v : value) : result (list string) :=
  match v with
  | VDict d => OK (map fst d)
  | _ => Raise AttributeError
  end.

Fixpoint enumerate_from {A : Type} (start : nat) (l : list A) : list (nat * A) :=
  match l with
  | [] => []
  | x :: l' => (start, x) :: enumerate_from (S start) l'
  end.

Definition enumerate {A : Type} (l : list A) : list (nat * A) := enumerate_from 0 l.

(** A [for] loop whose body may raise: the state is threaded through the
    iterations and the first exception ends the loop. *)
Fixpoint for_each {A S : Type} (xs : list A) (body : A -> S -> result S) (st : S)
  : result S :=
  match xs with
  | [] => OK st
  | x :: xs' => st' ← body x st; for_each xs' body st'
  end.

(** A float literal, [digits] times ten to the [exp10], as it is written in
    the notebook: [2.5e-5] is [FloatLit 25 (-6)]. *)
Record float_literal : Type := FloatLit { digits : Z; exp10 : Z }.

(** [int.__repr__]. *)
Definition int_repr (n : Z) : string := NilEmpty.string_of_int (Z.to_int n).

(** Operations of the Python runtime, and of the operating system under
    it, that are taken as given: [repr] of lists and dictionaries,
    [float.__repr__], the parser [json.loads] ([None] when it raises) with
    the exception it raises on a text it rejects, the exception that opening
    or reading a file raises when the file cannot be read, and the
    exception, if any, that opening a path for writing raises. *)
Class Runtime : Type := {
  py_repr : value -> string;
  float_repr : spec_float -> string;
  json_loads : string -> option value;
  json_loads_error : string -> exn;
  read_error : string -> exn;
  open_wt_error : string -> option exn
}.

Section Builtins.
Context {RT : Runtime}.

(** [str(v)], which is what an f-string field [{v}] inserts. *)
Definition py_str (v : value) : string :=
  match v with
  | VStr s => s
  | VNone => "None"
  | VBool true => "True"
  | VBool false => "False"
  | VInt n => int_repr n
  | VFloat x => float_repr x
  | VList _ | VDict _ => py_repr v
  end.

(** *** [json.dumps] with its default arguments *)

Definition hex_digit (n : N) : ascii :=
  match n with
  | 0%N => "0" | 1%N => "1" | 2%N => "2" | 3%N => "3"
  | 4%N => "4" | 5%N => "5" | 6%N => "6" | 7%N => "7"
  | 8%N => "8" | 9%N => "9" | 10%N => "a" | 11%N => "b"
  | 12%N => "c" | 13%N => "d" | 14%N => "e" | _ => "f"
  end%char.

Definition backslash : ascii := "092".
Definition dquote : ascii := "034".

Definition esc (ch : ascii) : string := String backslash (String ch EmptyString).

(** One character of a string under [ensure_ascii=True]. *)
Definition escape_char (ch : ascii) : string :=
  let n := N_of_ascii ch in
  if (n =? 34)%N then esc dquote
  else if (n =? 92)%N then esc backslash
  else if (n =? 10)%N then esc "n"
  else if (n =? 13)%N then esc "r"
  else if (n =? 9)%N then esc "t"
  else if (n =? 8)%N then esc "b"
  else if (n =? 12)%N then esc "f"
  else if ((32 <=? n) && (n <=? 126))%N then String ch EmptyString
  else esc "u" +:+ "00"
       +:+ String (hex_digit (n / 16)) (String (hex_digit (n mod 16)) EmptyString).

Fixpoint escape_chars (s : string) : string :=
  match s with
  | EmptyString => EmptyString
  | String ch s' => escape_char ch +:+ escape_chars s'
  end.

Definition encode_string (s : string) : string :=
  String dquote (escape_chars s) +:+ String dquote EmptyString.

Definition floatstr (x : spec_float) : string :=
  match x with
  | S754_nan => "NaN"
  | S754_infinity false => "Infinity"
  | S754_infinity true => "-Infinity"
  | _ => float_repr x
  end.

Fixpoint json_dumps (v : value) : string :=
  match v with
  | VNone => "null"
  | VBool true => "true"
  | VBool false => "false"
  | VInt n => int_repr n
  | VFloat x => floatstr x
  | VStr s => encode_string s
  | VList l => "[" +:+ String.concat ", " (map json_dumps l) +:+ "]"
  | VDict d =>
      "{" +:+ String.concat ", "
                (map (fun kv => encode_string (fst kv) +:+ ": " +:+ json_dumps (snd kv)) d)
          +:+ "}"
  end.

(** *** Files *)

(** The files are a map from the paths that can be read, as the notebook
    spells them, to the text that reading them gives. *)

(** [open(path, 'rt')] followed by reading the whole file.  A path that
    cannot be opened or read raises what the operating system makes it
    raise: [FileNotFoundError], [IsADirectoryError], [PermissionError],
    [UnicodeDecodeError] and so on. *)
Definition read_text (path : string) (files : gmap string string) : result string :=
  match files !! path with
  | Some text => OK text
  | None => Raise (read_error path)
  end.

End Builtins.

(** The state after an [open(path, 'wt')] that succeeded: the file is
    created, or emptied if it exists.  Whether the open succeeds is
    [open_wt_error]'s to say, where the open is made. *)
Definition open_wt (path : string) (files : gmap string string) : gmap string string :=
  <[path := EmptyString]> files.

(** [f.write(s)] on the file opened at [path]. *)
Definition file_write (path s : string) (files : gmap string string)
  : gmap string string :=
  alter (fun content => content +:+ s) path files.

(** The lines of a text file, without their terminators. *)
Fixpoint lines_from (cur s : string) : list string :=
  match s with
  | EmptyString => if String.eqb cur EmptyString then [] else [cur]
  | String ch s' =>
      if Ascii.eqb ch "010" then cur :: lines_from EmptyString s'
      else lines_from (cur +:+ String ch EmptyString) s'
  end.

Definition file_lines (s : string) : list string := lines_from EmptyString s.

End Py.

Import Py.

(** ** mistral-finetune-nemo.ipynb *)

Module Nemo.
Section Cells.
Context {RT : Runtime}.

(** The files that a call of [write_jsonl] leaves when it completes. *)
Definition write_jsonl (fname : string) (json_objs : list value)
    (files : gmap string string) : gmap string string :=
  let files := open_wt fname files in
  fold_left (fun files o => file_write fname (json_dumps o +:+ nl) files) json_objs files.

(** [write_jsonl(fname, json_objs)] as a call.  Its first step opens [fname]
    for writing: when that raises, the exception leaves the call and no file
    is touched; otherwise the call completes. *)
Definition write_jsonl_call (fname : string) (json_objs : list value)
    (files : gmap string string) : result unit * gmap string string :=
  match open_wt_error fname with
  | Some e => (Raise e, files)
  | None => (OK tt, write_jsonl fname json_objs files)
  end.

Definition form_question (obj : value) : result string :=
  let st := EmptyString in
  question ← getitem_str obj "QUESTION";
  let st := st +:+ ("QUESTION:" +:+ py_str question +:+ nl) in
  let st := st +:+ "CONTEXT: " in
  labels ← getitem_str obj "LABELS";
  items ← py_iter labels;
  st ← for_each (enumerate items)
          (fun '(i, label) st =>
             contexts ← getitem_str obj "CONTEXTS";
             context ← getitem_int contexts i;
             OK (st +:+ (py_str context +:+ nl)))
          st;
  let st := st +:+ "TARGET: the answer to the question given the context is (yes|no|maybe): " in
  OK st.

(** The loop of [convert_to_jsonl], from the loaded [data] to [json_objs]. *)
Definition convert_records (data : value) : result (list value) :=
  keys ← py_keys data;
  for_each keys
    (fun k json_objs =>
       obj ← getitem_str data k;
       prompt ← form_question obj;
       completion ← getitem_str obj "reasoning_required_pred";
       OK (json_objs ++ [VDict [("input", VStr prompt); ("output", completion)]]))
    [].

Definition load_json (data_path : string) (files : gmap string string) : result value :=
  text ← read_text data_path files;
  match json_loads text with
  | Some data => OK data
  | None => Raise (json_loads_error text)
  end.

(** Returns what the call returns or raises, and the files afterwards. *)
Definition convert_to_jsonl (data_path output_path : string)
    (files : gmap string string) : result (list value) * gmap string string :=
  match load_json data_path files with
  | Raise e => (Raise e, files)
  | OK data =>
      match convert_records data with
      | Raise e => (Raise e, files)
      | OK json_objs =>
          match write_jsonl_call output_path json_objs files with
          | (Raise e, files) => (Raise e, files)
          | (OK _, files) => (OK json_objs, files)
          end
      end
  end.

End Cells.
End Nemo.

(** ** mixtral-finetune-own-data.ipynb *)

Module Mixtral.

(** Keyword arguments of a tokenizer call; [None] is an argument left out. *)
Record tokenizer_kwargs : Type := {
  truncation : option bool;
  kw_max_length : option Z;
  padding : option string
}.

(** The tokenizer of the [transformers] library.  Called on one text it
    returns a [BatchEncoding], a dictionary of integer sequences. *)
Class Tokenizer : Type := {
  tokenizer : string -> tokenizer_kwargs -> result (gmap string (list Z))
}.

Record LoraConfig : Type := {
  r : Z;
  lora_alpha : Z;
  target_modules : list string;
  bias : string;
  lora_dropout : float_literal;
  task_type : string
}.

Record TrainingArguments : Type := {
  output_dir : string;
  warmup_steps : Z;
  per_device_train_batch_size : Z;
  gradient_accumulation_steps : Z;
  gradient_checkpointing : bool;
  max_steps : Z;
  learning_rate : float_literal;
  fp16 : bool;
  optim : string;
  logging_steps : Z;
  logging_dir : string;
  save_strategy : string;
  save_steps : Z;
  evaluation_strategy : string;
  eval_steps : Z;
  do_eval : bool;
  report_to : string;
  run_name : string
}.

(** The [peft] and [transformers] entry points the training cells call.
    Models, datasets, collators and trainers are opaque to the notebook. *)
Class Training : Type := {
  model_t : Type;
  dataset_t : Type;
  tokenizer_t : Type;
  collator_t : Type;
  trainer_t : Type;
  get_peft_model : model_t -> LoraConfig -> model_t;
  DataCollatorForLanguageModeling : tokenizer_t -> bool -> collator_t;
  Trainer : model_t -> dataset_t -> dataset_t -> TrainingArguments -> collator_t -> trainer_t
}.

Section Cells.
Context {RT : Runtime} {TK : Tokenizer} {TR : Training}.

Definition formatting_func (example : value) : result string :=
  note ← getitem_str example "note";
  let text := "### The following is a note by Eevee the Dog: " +:+ py_str note in
  OK text.

Definition generate_and_tokenize_prompt (prompt : value)
  : result (gmap string (list Z)) :=
  text ← formatting_func prompt;
  tokenizer text {| truncation := None; kw_max_length := None; padding := None |}.

Definition max_length : Z := 512.

Definition generate_and_tokenize_prompt2 (prompt : value)
  : result (gmap string (list Z)) :=
  text ← formatting_func prompt;
  result ← tokenizer text
             {| truncation := Some true;
                kw_max_length := Some max_length;
                padding := Some "max_length" |};
  match result !! "input_ids" with
  | Some input_ids => OK (<["labels" := input_ids]> result)
  | None => Raise (KeyError (VStr "input_ids"))
  end.

(** The cell that wraps the model in LoRA adapters: [config] and the call
    that receives it.  The diagnostic print that ends the cell is left out. *)
Definition config : LoraConfig := {|
  r := 32;
  lora_alpha := 64;
  target_modules :=
    ["q_proj"; "k_proj"; "v_proj"; "o_proj"; "w1"; "w2"; "w3"; "lm_head"];
  bias := "none";
  lora_dropout := FloatLit 5 (-2);
  task_type := "CAUSAL_LM"
|}.

Definition peft_cell (model : model_t) : model_t := get_peft_model model config.

(** The cell that builds the trainer, up to the construction of [trainer];
    the two statements after it, which switch off the cache and start the
    training, are left out.  [now] stands for the result of
    [datetime.now().strftime('%Y-%m-%d-%H-%M')]. *)
Definition project : string := "journal-finetune".
Definition base_model_name : string := "mixtral".
Definition notebook_run_name : string := base_model_name +:+ "-" +:+ project.
Definition notebook_output_dir : string := "./" +:+ notebook_run_name.

(** The [TrainingArguments(...)] expression of the cell. *)
Definition training_arguments (now : string) : TrainingArguments := {|
  output_dir := notebook_output_dir;
  warmup_steps := 1;
  per_device_train_batch_size := 2;
  gradient_accumulation_steps := 1;
  gradient_checkpointing := true;
  max_steps := 300;
  learning_rate := FloatLit 25 (-6);
  fp16 := true;
  optim := "paged_adamw_8bit";
  logging_steps := 25;
  logging_dir := "./logs";
  save_strategy := "steps";
  save_steps := 25;
  evaluation_strategy := "steps";
  eval_steps := 25;
  do_eval := true;
  report_to := "wandb";
  run_name := notebook_run_name +:+ "-" +:+ now
|}.

Definition trainer_cell (model : model_t)
    (tokenized_train_dataset tokenized_val_dataset : dataset_t)
    (tok : tokenizer_t) (now : string) : trainer_t :=
  Trainer model tokenized_train_dataset tokenized_val_dataset
    (training_arguments now)
    (DataCollatorForLanguageModeling tok false).

End Cells.
End Mixtral.

(** ** biomistral.ipynb *)

Module BioMistral.

(** The [transformers] operations of the generation cell. *)
Class Generation : Type := {
  model_t : Type;
  encoding_t : Type;
  eval_tokenizer : string -> string -> encoding_t;
  encoding_to : encoding_t -> string -> encoding_t;
  model_eval : model_t -> model_t;
  model_generate : model_t -> encoding_t -> Z -> float_literal -> list (list Z);
  eval_tokenizer_decode : list Z -> bool -> string
}.

Section Cells.
Context {G : Generation}.

Definition eval_prompt : string := "The best way to ".

(** [print(x)] writes [x] and a line feed to the standard output. *)
Definition print (text : string) (stdout : string) : string := stdout +:+ text +:+ nl.

(** The last cell: from the loaded [model] and the output so far to the
    output afterwards.  Taking element [0] of the generated batch raises when
    the batch is empty. *)
Definition generation_cell (model : model_t) (stdout : string) : result string :=
  let model_input := encoding_to (eval_tokenizer eval_prompt "pt") "cuda" in
  let model := model_eval model in
  match model_generate model model_input 100 (FloatLit 115 (-2)) !! 0%nat with
  | Some sequence => OK (print (eval_tokenizer_decode sequence true) stdout)
  | None => Raise IndexError
  end.

End Cells.
End BioMistral.

(** ** Vocabulary of the statements *)

Import Nemo Mixtral.

(** The strings of a list put one after the other. *)
Definition concat_all (l : list string) : string := fold_right String.append EmptyString l.

(** A string without a line feed. *)
Fixpoint nl_free (s : string) : bool :=
  match s with
  | EmptyString => true
  | String ch s' => negb (Ascii.eqb ch "010") && nl_free s'
  end.

(** [obj] is a dictionary that binds [k]. *)
Definition has_key (obj : value) (k : string) : bool :=
  match getitem_str obj k with
  | OK _ => true
  | Raise _ => false
  end.

(** An exception was raised. *)
Definition raises {A : Type} (m : result A) : Prop := exists e, m = Raise e.

Section Vocabulary.
Context {RT : Runtime}.

(** The prompt as the specification words it: the template filled with the
    question and with the first [n] contexts, each followed by a line feed. *)
Definition spec_prompt (question : value) (contexts : list value) (n : nat) : string :=
  "QUESTION:" +:+ py_str question +:+ nl +:+
  "CONTEXT: " +:+
  concat_all (map (fun i => py_str (nth i contexts VNone) +:+ nl) (seq 0 n)) +:+
  "TARGET: the answer to the question given the context is (yes|no|maybe): ".

(** A JSON-lines text: each object serialised on a line of its own. *)
Definition jsonl_text (json_objs : list value) : string :=
  concat_all (map (fun o => json_dumps o +:+ nl) json_objs).

(** [repr] of a float is a single line. *)
Definition float_repr_one_line : Prop := forall x, nl_free (float_repr x) = true.



(** The body of the loop of [form_question], as a function of the index. *)
Definition context_step (obj : value) (i : nat) (st : string) : result string :=
  contexts ← getitem_str obj "CONTEXTS";
  context ← getitem_int contexts i;
  OK (st +:+ (py_str context +:+ nl)).

(** One iteration of the loop of [convert_to_jsonl], without the accumulator. *)
Definition convert_record (data : value) (k : string) : result value :=
  obj ← getitem_str data k;
  prompt ← form_question obj;
  completion ← getitem_str obj "reasoning_required_pred";
  OK (VDict [("input", VStr prompt); ("output", completion)]).

End Vocabulary.

(** ** Sample inputs *)

Module Samples.

(** A runtime for the examples: [repr] of floats and containers is a
    placeholder, the parser knows no document, a file that cannot be read is
    missing, and a path can be opened for writing unless it lies in the
    directory [nodir], which does not exist. *)
Definition base_runtime : Runtime := {|
  py_repr := fun _ => "<repr>";
  float_repr := fun _ => "0.0";
  json_loads := fun _ => None;
  json_loads_error := fun _ => JSONDecodeError;
  read_error := fun _ => FileNotFoundError;
  open_wt_error := fun path =>
    if String.prefix "nodir/" path then Some FileNotFoundError else None
|}.

(** The same runtime with a parser that reads back the serialisation of the
    documents of [docs]. *)
Definition runtime_of (docs : list value) : Runtime := {|
  py_repr := @py_repr base_runtime;
  float_repr := @float_repr base_runtime;
  json_loads := fun text =>
    find (fun doc => String.eqb (@json_dumps base_runtime doc) text) docs;
  json_loads_error := @json_loads_error base_runtime;
  read_error := @read_error base_runtime;
  open_wt_error := @open_wt_error base_runtime
|}.

Definition record_ok : value :=
  VDict [("QUESTION", VStr "Is it?");
         ("CONTEXTS", VList [VStr "c1"; VStr "c2"; VStr "c3"]);
         ("LABELS", VList [VStr "BACKGROUND"; VStr "RESULTS"]);
         ("reasoning_required_pred", VStr "yes")].

(** The same question and contexts under other labels. *)
Definition record_relabelled : value :=
  VDict [("QUESTION", VStr "Is it?");
         ("CONTEXTS", VList [VStr "c1"; VStr "c2"; VStr "c3"]);
         ("LABELS", VList [VStr "METHODS"; VInt 7]);
         ("reasoning_required_pred", VStr "no")].

(** The contexts cut to the number of labels. *)
Definition record_cut : value :=
  VDict [("QUESTION", VStr "Is it?");
         ("CONTEXTS", VList [VStr "c1"; VStr "c2"]);
         ("LABELS", VList [VStr "BACKGROUND"; VStr "RESULTS"]);
         ("reasoning_required_pred", VStr "yes")].

(** All four keys, but one label and no context. *)
Definition record_short : value :=
  VDict [("QUESTION", VStr "Is it?");
         ("CONTEXTS", VList []);
         ("LABELS", VList [VStr "BACKGROUND"]);
         ("reasoning_required_pred", VStr "yes")].

(** No 'CONTEXTS' key, and no label. *)
Definition record_no_contexts : value :=
  VDict [("QUESTION", VStr "Is it?");
         ("LABELS", VList []);
         ("reasoning_required_pred", VStr "maybe")].

(** No 'QUESTION' key. *)
Definition record_no_question : value :=
  VDict [("CONTEXTS", VList [VStr "c1"]);
         ("LABELS", VList [VStr "BACKGROUND"]);
         ("reasoning_required_pred", VStr "yes")].

Definition data_ok : value := VDict [("101", record_ok); ("102", record_cut)].
Definition data_short : value := VDict [("101", record_ok); ("102", record_short)].
Definition data_no_contexts : value := VDict [("101", record_no_contexts)].
Definition data_no_question : value := VDict [("101", record_ok); ("102", record_no_question)].

Definition sample_runtime : Runtime :=
  runtime_of [data_ok; data_short; data_no_contexts; data_no_question].

(** A directory that holds [data] as [data.json]. *)
Definition files_with (data : value) : gmap string string :=
  {[ "data.json" := @json_dumps base_runtime data ]}.

(** A tokenizer for the examples: one token per character, no padding. *)
Definition char_tokenizer : Tokenizer := {|
  tokenizer := fun text _ =>
    let ids := map (fun ch => Z.of_N (N_of_ascii ch)) (list_ascii_of_string text) in
    OK (<["input_ids" := ids]> (<["attention_mask" := map (fun _ => 1%Z) ids]> ∅))
|}.

(** What the conversion makes of [data_no_contexts]. *)
Definition objs_no_contexts : list value :=
  [VDict [("input",
           VStr ("QUESTION:Is it?" +:+ nl +:+
                 "CONTEXT: TARGET: the answer to the question given the context is (yes|no|maybe): "));
          ("output", VStr "maybe")]].

Definition note_record : value := VDict [("note", VStr "Woof"); ("day", VInt 3)].
Definition record_without_note : value := VDict [("text", VStr "Woof")].

(** A generation library for the examples: the model echoes its input and
    adds one token. *)
Definition echo_generation : BioMistral.Generation := {|
  BioMistral.model_t := unit;
  BioMistral.encoding_t := list Z;
  BioMistral.eval_tokenizer := fun text _ =>
    map (fun ch => Z.of_N (N_of_ascii ch)) (list_ascii_of_string text);
  BioMistral.encoding_to := fun enc _ => enc;
  BioMistral.model_eval := fun m => m;
  BioMistral.model_generate := fun _ enc _ _ => [enc ++ [33%Z]];
  BioMistral.eval_tokenizer_decode := fun ids _ =>
    string_of_list_ascii (map (fun z => ascii_of_N (Z.to_N z)) ids)
|}.

End Samples.

Import Samples.

(** ** Further cells *)

(** *** mistral-finetune-nemo.ipynb: the three splits and the data settings *)

Module NemoCells.
Section Cells.
Context {RT : Runtime}.

(** The cell that converts the test, train and validation splits.  Each call
    sees the files the call before it left, and the first exception ends the
    cell. *)
Definition convert_splits (files : gmap string string)
  : result (list value * list value * list value) * gmap string string :=
  match convert_to_jsonl "pubmedqa/data/test_set.json" "pubmedqa_test.jsonl" files with
  | (Raise e, files) => (Raise e, files)
  | (OK test_json_objs, files) =>
      match convert_to_jsonl "pubmedqa/data/pqal_fold0/train_set.json"
                             "pubmedqa_train.jsonl" files with
      | (Raise e, files) => (Raise e, files)
      | (OK train_json_objs, files) =>
          match convert_to_jsonl "pubmedqa/data/pqal_fold0/dev_set.json"
                                 "pubmedqa_val.jsonl" files with
          | (Raise e, files) => (Raise e, files)
          | (OK dev_json_objs, files) =>
              (OK (test_json_objs, train_json_objs, dev_json_objs), files)
          end
      end
  end.

End Cells.

(** The float [1.0]. *)
Definition one_float : spec_float := S754_finite false 4503599627370496 (-52).

(** The dictionary merged into [cfg] at "model.data". *)
Definition data_settings : value :=
  VDict [("train_ds",
          VDict [("num_workers", VInt 0);
                 ("file_names", VList [VStr "pubmedqa_train.jsonl"]);
                 ("concat_sampling_probabilities", VList [VFloat one_float])]);
         ("validation_ds",
          VDict [("num_workers", VInt 0);
                 ("file_names", VList [VStr "pubmedqa_val.jsonl"])]);
         ("test_ds",
          VDict [("file_names", VList [VStr "pubmedqa_test.jsonl"]);
                 ("names", VList [VStr "pubmedqa"])])].

(** [settings[ds]["file_names"]], as the list of its items. *)
Definition split_file_names (settings : value) (ds : string) : result (list value) :=
  split ← getitem_str settings ds;
  names ← getitem_str split "file_names";
  py_iter names.

End NemoCells.

(** *** mixtral-finetune-own-data.ipynb: the two diagnostic functions *)

Module MixtralDiagnostics.

(** [len(v)]. *)
Definition py_len (v : value) : result nat :=
  match v with
  | VList l => OK (length l)
  | VStr s => OK (String.length s)
  | VDict d => OK (length d)
  | _ => Raise TypeError
  end.

(** [print(x)] writes [x] and a line feed to the standard output. *)
Definition print (text : string) (stdout : string) : string := stdout +:+ text +:+ nl.

(** The calls into [matplotlib.pyplot], with their arguments. *)
Inductive plt_call : Type :=
| plt_figure (figsize : Z * Z)
| plt_hist (x : list nat) (bins : Z) (alpha : float_literal) (color : string)
| plt_xlabel (label : string)
| plt_ylabel (label : string)
| plt_title (label : string)
| plt_show.

(** [[len(x['input_ids']) for x in dataset]], a dataset being the list of
    its rows. *)
Definition input_lengths (dataset : list value) : result (list nat) :=
  for_each dataset
    (fun x lengths =>
       input_ids ← getitem_str x "input_ids";
       n ← py_len input_ids;
       OK (lengths ++ [n]))
    [].

(** Returns the plotting calls made, or what was raised, and the standard
    output afterwards. *)
Definition plot_data_lengths (tokenized_train_dataset tokenized_val_dataset : list value)
    (stdout : string) : result (list plt_call) * string :=
  match (lengths ← input_lengths tokenized_train_dataset;
         more ← input_lengths tokenized_val_dataset;
         OK (lengths ++ more)) with
  | Raise e => (Raise e, stdout)
  | OK lengths =>
      (OK [plt_figure (10, 6)%Z;
           plt_hist lengths 20 (FloatLit 7 (-1)) "blue";
           plt_xlabel "Length of input_ids";
           plt_ylabel "Frequency";
           plt_title "Distribution of Lengths of input_ids";
           plt_show],
       print (int_repr (Z.of_nat (length lengths))) stdout)
  end.

(** What the function reads of a [torch] parameter. *)
Record parameter : Type := { numel : N; requires_grad : bool }.

(** [repr] of the float [a / b], for [b] other than zero. *)
Class TrueDivision : Type := { truediv_repr : Z -> Z -> string }.

Inductive arithmetic_error : Type := ZeroDivisionError.

(** The loop of [print_trainable_parameters] over [model.named_parameters()]:
    the pair [(trainable_params, all_param)] after it. *)
Definition count_parameters (named_parameters : list (string * parameter)) : N * N :=
  fold_left
    (fun '(trainable_params, all_param) '(_, param) =>
       let all_param := (all_param + numel param)%N in
       let trainable_params :=
         if requires_grad param then (trainable_params + numel param)%N
         else trainable_params in
       (trainable_params, all_param))
    named_parameters (0%N, 0%N).

(** The standard output afterwards, or the error of the division. *)
Definition print_trainable_parameters `{TrueDivision}
    (named_parameters : list (string * parameter)) (stdout : string)
  : arithmetic_error + string :=
  let '(trainable_params, all_param) := count_parameters named_parameters in
  if (all_param =? 0)%N then inl ZeroDivisionError
  else inr (print ("trainable params: " +:+ int_repr (Z.of_N trainable_params) +:+
                   " || all params: " +:+ int_repr (Z.of_N all_param) +:+
                   " || trainable%: " +:+
                   truediv_repr (100 * Z.of_N trainable_params) (Z.of_N all_param))
                  stdout).

End MixtralDiagnostics.

(** *** The question-answering notebook: printing the predictions *)

Module QA.
Section Cells.
Context {RT : Runtime}.

(** [for question_id in all_preds: print(all_preds[question_id])], for the
    dictionary [all_preds] that [model.inference] returns.  Returns what the
    loop raised, if anything, and the standard output afterwards. *)
Definition print_predictions (all_preds : list (string * value)) (stdout : string)
  : result unit * string :=
  fold_left
    (fun '(outcome, stdout) question_id =>
       match outcome with
       | Raise e => (Raise e, stdout)
       | OK _ =>
           match getitem_str (VDict all_preds) question_id with
           | OK prediction => (OK tt, MixtralDiagnostics.print (py_str prediction) stdout)
           | Raise e => (Raise e, stdout)
           end
       end)
    (map fst all_preds) (OK tt, stdout).

End Cells.
End QA.

(** *** Vocabulary of the further statements and more sample inputs *)

(** The sum of a list of sizes. *)
Definition total (sizes : list N) : N := fold_right N.add 0%N sizes.

(** [row] has an 'input_ids' that [len] accepts. *)
Definition sized_input_ids (row : value) : bool :=
  match getitem_str row "input_ids" with
  | OK input_ids =>
      match MixtralDiagnostics.py_len input_ids with
      | OK _ => true
      | Raise _ => false
      end
  | Raise _ => false
  end.

(** [len(row['input_ids'])], zero where it is not defined. *)
Definition input_length (row : value) : nat :=
  match getitem_str row "input_ids" with
  | OK input_ids =>
      match MixtralDiagnostics.py_len input_ids with
      | OK n => n
      | Raise _ => 0
      end
  | Raise _ => 0
  end.

Module MoreSamples.

Definition data_empty : value := VDict [].

(** A runtime whose parser also knows the empty mapping. *)
Definition runtime_with_empty : Runtime :=
  Samples.runtime_of [Samples.data_ok; data_empty; Samples.data_short].

(** The three splits of the notebook, each holding [data_ok]. *)
Definition split_files : gmap string string :=
  <["pubmedqa/data/test_set.json" := @json_dumps Samples.base_runtime Samples.data_ok]>
  (<["pubmedqa/data/pqal_fold0/train_set.json" := @json_dumps Samples.base_runtime Samples.data_ok]>
   (<["pubmedqa/data/pqal_fold0/dev_set.json" := @json_dumps Samples.base_runtime Samples.data_ok]> ∅)).

(** A tokenizer that always fails. *)
Definition failing_tokenizer : Tokenizer := {|
  tokenizer := fun _ _ => Raise TypeError
|}.

(** A tokenizer whose encodings lack 'input_ids'. *)
Definition bare_tokenizer : Tokenizer := {|
  tokenizer := fun _ _ => OK (<["attention_mask" := [1%Z]]> ∅)
|}.

Definition row (ids : list Z) : value :=
  VDict [("note", VStr "Woof"); ("input_ids", VList (map VInt ids))].

Definition train_rows : list value := [row [1; 2; 3]%Z; row [4; 5]%Z].
Definition val_rows : list value := [row [6]%Z].
Definition broken_rows : list value := [row [6]%Z; VDict [("note", VStr "Woof")]].

Definition sample_division : MixtralDiagnostics.TrueDivision := {|
  MixtralDiagnostics.truediv_repr := fun _ _ => "<float>"
|}.

Definition sample_parameters : list (string * MixtralDiagnostics.parameter) :=
  [("base.weight", {| MixtralDiagnostics.numel := 4096; MixtralDiagnostics.requires_grad := false |});
   ("lora_A.weight", {| MixtralDiagnostics.numel := 64; MixtralDiagnostics.requires_grad := true |});
   ("lora_B.weight", {| MixtralDiagnostics.numel := 64; MixtralDiagnostics.requires_grad := true |})].

Definition empty_parameters : list (string * MixtralDiagnostics.parameter) :=
  [("placeholder", {| MixtralDiagnostics.numel := 0; MixtralDiagnostics.requires_grad := true |})].

Definition sample_predictions : list (string * value) :=
  [("q1", VStr "yes"); ("q2", VStr "in 1999")].

(** The prompt of [record_ok], and of [record_cut]. *)
Definition prompt_ok : string :=
  "QUESTION:Is it?" +:+ nl +:+ "CONTEXT: c1" +:+ nl +:+ "c2" +:+ nl +:+
  "TARGET: the answer to the question given the context is (yes|no|maybe): ".

(** What the conversion makes of [data_ok]. *)
Definition objs_ok : list value :=
  [VDict [("input", VStr prompt_ok); ("output", VStr "yes")];
   VDict [("input", VStr prompt_ok); ("output", VStr "yes")]].

End MoreSamples.

(** ** Properties *)

(** *** Strings, loops and results *)

Lemma append_cons (ch : ascii) (a b : string) : String ch a +:+ b = String ch (a +:+ b).
Proof. reflexivity. Qed.

Lemma append_assoc (a b c : string) : (a +:+ b) +:+ c = a +:+ (b +:+ c).
Proof. induction a as [|ch a IH]; [reflexivity|]. now rewrite !append_cons, IH. Qed.

Lemma append_empty_r (a : string) : a +:+ EmptyString = a.
Proof. induction a as [|ch a IH]; [reflexivity|]. now rewrite append_cons, IH. Qed.

Lemma bind_OK {A B : Type} (a : A) (k : A -> result B) : (OK a ≫= k) = k a.
Proof. reflexivity. Qed.

Lemma bind_Raise {A B : Type} (e : exn) (k : A -> result B) : (Raise e ≫= k) = Raise e.
Proof. reflexivity. Qed.

(** A loop over [enumerate] that ignores the element is a loop over the
    indices. *)
Lemma for_each_enumerate {A S : Type} (body : nat -> S -> result S) (l : list A) :
  forall start st,
    for_each (enumerate_from start l) (fun '(i, _) st => body i st) st
    = for_each (seq start (length l)) body st.
Proof.
  induction l as [|x l IH]; intros start st; simpl; [reflexivity|].
  destruct (body start st) as [st'|e]; simpl; [apply IH | reflexivity].
Qed.

(** Appending one result per element is [map]. *)
Lemma for_each_collect {A B : Type} (f : A -> result B) (xs : list A) (g : A -> B) :
  (forall x, In x xs -> f x = OK (g x)) ->
  forall acc,
    for_each xs (fun x acc => y ← f x; OK (acc ++ [y])) acc = OK (acc ++ map g xs).
Proof.
  induction xs as [|x xs IH]; intros Hf acc; simpl.
  - now rewrite app_nil_r.
  - rewrite (Hf x) by now left. simpl.
    rewrite IH by (intros y Hy; apply Hf; now right).
    now rewrite <- List.app_assoc.
Qed.

(** One failing element makes the loop fail, whatever came before. *)
Lemma for_each_raises {A S : Type} (body : A -> S -> result S) (xs : list A) (x : A) :
  In x xs -> (forall st, raises (body x st)) -> forall st, raises (for_each xs body st).
Proof.
  induction xs as [|y xs IH]; intros Hin Hx st; simpl; [contradiction|].
  destruct Hin as [->|Hin].
  - destruct (Hx st) as [e ->]. now exists e.
  - destruct (body y st) as [st'|e]; simpl; [now apply IH | now exists e].
Qed.

(** An exception of the loop is the exception of one of its iterations. *)
Lemma for_each_raise_origin {A S : Type} (body : A -> S -> result S) (xs : list A) (e : exn) :
  forall st, for_each xs body st = Raise e ->
             exists x st', In x xs /\ body x st' = Raise e.
Proof.
  induction xs as [|x xs IH]; intros st; cbn [for_each]; [discriminate|].
  destruct (body x st) as [st'|e'] eqn:E.
  - rewrite bind_OK. intros H. destruct (IH _ H) as (y & st'' & Hin & Hy).
    exists y, st''. split; [now right | exact Hy].
  - rewrite bind_Raise. intros [= ->]. exists x, st. split; [now left | exact E].
Qed.

Lemma for_each_ext {A S : Type} (body body' : A -> S -> result S) (xs : list A) :
  (forall x st, In x xs -> body x st = body' x st) ->
  forall st, for_each xs body st = for_each xs body' st.
Proof.
  induction xs as [|x xs IH]; intros Hb st; simpl; [reflexivity|].
  rewrite (Hb x st) by now left.
  destruct (body' x st) as [st'|e]; simpl; [|reflexivity].
  apply IH. intros y st'' Hy. apply Hb. now right.
Qed.

Lemma assoc_In {A : Type} (k : string) (d : list (string * A)) (v : A) :
  assoc k d = Some v -> In k (map fst d).
Proof.
  induction d as [|[k' v'] d IH]; simpl; [discriminate|].
  destruct (String.eqb k' k) eqn:E.
  - apply String.eqb_eq in E. now left.
  - intros H. right. now apply IH.
Qed.

Lemma In_assoc {A : Type} (k : string) (d : list (string * A)) :
  In k (map fst d) -> exists v, assoc k d = Some v.
Proof.
  induction d as [|[k' v'] d IH]; simpl; [contradiction|].
  intros H. destruct (String.eqb k' k) eqn:E; [now exists v'|].
  destruct H as [H|H]; [|now apply IH].
  apply String.eqb_neq in E. contradiction.
Qed.

(** *** The context loop of [form_question] *)

Section FormQuestion.
Context {RT : Runtime}.

Lemma form_question_unfold (obj : value) :
  form_question obj =
    (question ← getitem_str obj "QUESTION";
     labels ← getitem_str obj "LABELS";
     items ← py_iter labels;
     st ← for_each (seq 0 (length items)) (context_step obj)
            ("QUESTION:" +:+ py_str question +:+ nl +:+ "CONTEXT: ");
     OK (st +:+ "TARGET: the answer to the question given the context is (yes|no|maybe): ")).
Proof.
  unfold form_question.
  destruct (getitem_str obj "QUESTION") as [q|e]; simpl; [|reflexivity].
  destruct (getitem_str obj "LABELS") as [labels|e]; simpl; [|reflexivity].
  destruct (py_iter labels) as [items|e]; simpl; [|reflexivity].
  unfold enumerate.
  rewrite <- (for_each_enumerate (context_step obj) items 0).
  unfold context_step. now rewrite !append_assoc.
Qed.

Lemma context_step_list (obj : value) (contexts : list value) (i : nat) (st : string) :
  getitem_str obj "CONTEXTS" = OK (VList contexts) ->
  context_step obj i st =
    match contexts !! i with
    | Some context => OK (st +:+ (py_str context +:+ nl))
    | None => Raise IndexError
    end.
Proof.
  intros Hc. unfold context_step. rewrite Hc. simpl.
  now destruct (contexts !! i).
Qed.

Lemma context_step_raises (obj : value) (e : exn) (i : nat) (st : string) :
  getitem_str obj "CONTEXTS" = Raise e -> context_step obj i st = Raise e.
Proof. intros Hc. unfold context_step. now rewrite Hc. Qed.

(** With enough contexts the loop appends them in order. *)
Lemma context_loop_ok (obj : value) (contexts : list value) :
  getitem_str obj "CONTEXTS" = OK (VList contexts) ->
  forall n start st,
    start + n <= length contexts ->
    for_each (seq start n) (context_step obj) st
    = OK (st +:+ concat_all (map (fun i => py_str (nth i contexts VNone) +:+ nl)
                                 (seq start n))).
Proof.
  intros Hc n. induction n as [|n IH]; intros start st Hle; cbn [seq for_each map].
  - cbn. now rewrite append_empty_r.
  - rewrite (context_step_list _ _ _ _ Hc).
    destruct (contexts !! start) as [c|] eqn:E.
    + rewrite bind_OK, IH by lia.
      rewrite (nth_lookup_Some _ _ VNone _ E).
      cbn [concat_all fold_right]. now rewrite !append_assoc.
    + apply lookup_ge_None in E. lia.
Qed.

(** With too few contexts the loop stops at the first missing one. *)
Lemma context_loop_short (obj : value) (contexts : list value) :
  getitem_str obj "CONTEXTS" = OK (VList contexts) ->
  forall n start st,
    start <= length contexts < start + n ->
    for_each (seq start n) (context_step obj) st = Raise IndexError.
Proof.
  intros Hc n. induction n as [|n IH]; intros start st Hle; cbn [seq for_each]; [lia|].
  rewrite (context_step_list _ _ _ _ Hc).
  destruct (contexts !! start) as [c|] eqn:E.
  - rewrite bind_OK. apply IH. apply lookup_lt_Some in E. lia.
  - reflexivity.
Qed.

End FormQuestion.

(** *** [form_question] *)

Section FormQuestionClaims.
Context {RT : Runtime}.

Lemma form_question_lists (obj question : value) (labels contexts : list value) :
  getitem_str obj "QUESTION" = OK question ->
  getitem_str obj "LABELS" = OK (VList labels) ->
  getitem_str obj "CONTEXTS" = OK (VList contexts) ->
  form_question obj =
    if decide (length labels <= length contexts)
    then OK (spec_prompt question contexts (length labels))
    else Raise IndexError.
Proof.
  intros Hq Hl Hc. rewrite form_question_unfold, Hq, Hl.
  rewrite !bind_OK. cbn [py_iter]. rewrite !bind_OK.
  destruct (decide (length labels <= length contexts)) as [Hle|Hgt].
  - rewrite (context_loop_ok obj contexts Hc) by (simpl; lia).
    rewrite bind_OK. unfold spec_prompt. now rewrite !append_assoc.
  - rewrite (context_loop_short obj contexts Hc) by lia. reflexivity.
Qed.

(** C1.  For a record with the keys QUESTION, LABELS and CONTEXTS, whose
    labels and contexts are lists with at least as many contexts as labels,
    [form_question] returns the fixed template filled with the question and,
    in order, with one context per label, each followed by a line feed. *)
Theorem form_question_template (obj question : value) (labels contexts : list value) :
  getitem_str obj "QUESTION" = OK question ->
  getitem_str obj "LABELS" = OK (VList labels) ->
  getitem_str obj "CONTEXTS" = OK (VList contexts) ->
  length labels <= length contexts ->
  form_question obj =
    OK ("QUESTION:" +:+ py_str question +:+ nl +:+
        "CONTEXT: " +:+
        concat_all (map (fun i => py_str (nth i contexts VNone) +:+ nl)
                        (seq 0 (length labels))) +:+
        "TARGET: the answer to the question given the context is (yes|no|maybe): ").
Proof.
  intros Hq Hl Hc Hle.
  rewrite (form_question_lists obj question labels contexts Hq Hl Hc).
  now destruct (decide (length labels <= length contexts)).
Qed.

Lemma spec_prompt_firstn (question : value) (contexts contexts' : list value) (n : nat) :
  firstn n contexts = firstn n contexts' ->
  spec_prompt question contexts n = spec_prompt question contexts' n.
Proof.
  intros Hf. unfold spec_prompt.
  assert (Hn : forall (l : list value) i, i < n -> nth i l VNone = nth i (firstn n l) VNone).
  { clear. induction n as [|n IH]; intros l i Hi; [lia|].
    destruct l as [|x l]; [now destruct i|].
    destruct i as [|i]; [reflexivity|].
    cbn [firstn nth]. apply IH. lia. }
  rewrite (map_ext_in (fun i => py_str (nth i contexts VNone) +:+ nl)
                      (fun i => py_str (nth i contexts' VNone) +:+ nl)); [reflexivity|].
  intros i Hi. apply in_seq in Hi.
  rewrite (Hn contexts), (Hn contexts'), Hf by lia. reflexivity.
Qed.

(** C8.  On a record with a question and with lists of labels and contexts,
    [form_question] returns a prompt exactly when there are at least as many
    contexts as labels; with fewer, indexing past the last context raises
    [IndexError]; and contexts beyond the number of labels do not show in the
    prompt, which is the one of the record with those contexts cut off. *)
Theorem form_question_total_iff (obj question : value) (labels contexts : list value) :
  getitem_str obj "QUESTION" = OK question ->
  getitem_str obj "LABELS" = OK (VList labels) ->
  getitem_str obj "CONTEXTS" = OK (VList contexts) ->
  ((exists prompt, form_question obj = OK prompt) <-> length labels <= length contexts) /\
  (length contexts < length labels -> form_question obj = Raise IndexError) /\
  (length labels <= length contexts ->
   forall obj',
     getitem_str obj' "QUESTION" = OK question ->
     getitem_str obj' "LABELS" = OK (VList labels) ->
     getitem_str obj' "CONTEXTS" = OK (VList (firstn (length labels) contexts)) ->
     form_question obj' = form_question obj).
Proof.
  intros Hq Hl Hc.
  pose proof (form_question_lists obj question labels contexts Hq Hl Hc) as Hf.
  destruct (decide (length labels <= length contexts)) as [Hle|Hgt].
  - split; [|split].
    + split; [intros _; exact Hle | intros _; eauto].
    + intros Hlt. lia.
    + intros _ obj' Hq' Hl' Hc'.
      rewrite Hf, (form_question_lists obj' question labels _ Hq' Hl' Hc').
      rewrite length_firstn, Nat.min_l by exact Hle.
      destruct (decide (length labels <= length labels)) as [_|Hn]; [|lia].
      f_equal. apply spec_prompt_firstn. now rewrite firstn_firstn, Nat.min_id.
  - split; [|split].
    + split; [|intros Hle; contradiction].
      intros [prompt Hp]. rewrite Hf in Hp. discriminate.
    + intros _. exact Hf.
    + intros Hle. contradiction.
Qed.

(** C9.  The label values are never used: two records with the same
    question, the same contexts and label lists of the same length get the
    same result from [form_question], whatever the labels are; with a
    question and a context for every label, that result is one and the same
    prompt. *)
Theorem form_question_ignores_labels (obj1 obj2 : value) (labels1 labels2 : list value) :
  getitem_str obj1 "QUESTION" = getitem_str obj2 "QUESTION" ->
  getitem_str obj1 "CONTEXTS" = getitem_str obj2 "CONTEXTS" ->
  getitem_str obj1 "LABELS" = OK (VList labels1) ->
  getitem_str obj2 "LABELS" = OK (VList labels2) ->
  length labels1 = length labels2 ->
  form_question obj1 = form_question obj2 /\
  (forall question contexts,
     getitem_str obj1 "QUESTION" = OK question ->
     getitem_str obj1 "CONTEXTS" = OK (VList contexts) ->
     length labels1 <= length contexts ->
     exists prompt, form_question obj1 = OK prompt /\ form_question obj2 = OK prompt).
Proof.
  intros Hq Hc Hl1 Hl2 Hlen.
  assert (Heq : form_question obj1 = form_question obj2).
  { rewrite !form_question_unfold, Hq, Hl1, Hl2.
    destruct (getitem_str obj2 "QUESTION") as [question|e]; [|reflexivity].
    rewrite !bind_OK. cbn [py_iter]. rewrite !bind_OK, Hlen.
    f_equal. apply for_each_ext. intros i st _.
    unfold context_step. now rewrite Hc. }
  split; [exact Heq|].
  intros question contexts Hq1 Hc1 Hle.
  exists (spec_prompt question contexts (length labels1)).
  rewrite <- Heq, (form_question_lists obj1 question labels1 contexts Hq1 Hl1 Hc1).
  now destruct (decide (length labels1 <= length contexts)).
Qed.

End FormQuestionClaims.

(** *** Lines and [json.dumps] *)

Lemma nl_free_append (a b : string) : nl_free (a +:+ b) = nl_free a && nl_free b.
Proof.
  induction a as [|ch a IH]; [reflexivity|].
  rewrite append_cons. cbn [nl_free]. rewrite IH. now rewrite andb_assoc.
Qed.

Lemma nl_free_escape_char (ch : ascii) : nl_free (escape_char ch) = true.
Proof. destruct ch as [[] [] [] [] [] [] [] []]; reflexivity. Qed.

Lemma nl_free_escape_chars (s : string) : nl_free (escape_chars s) = true.
Proof.
  induction s as [|ch s IH]; [reflexivity|].
  cbn [escape_chars]. now rewrite nl_free_append, nl_free_escape_char, IH.
Qed.

Lemma nl_free_encode_string (s : string) : nl_free (encode_string s) = true.
Proof.
  unfold encode_string. rewrite nl_free_append. cbn [nl_free].
  now rewrite nl_free_escape_chars.
Qed.

Lemma nl_free_string_of_uint (d : Decimal.uint) : nl_free (NilEmpty.string_of_uint d) = true.
Proof. induction d; cbn [NilEmpty.string_of_uint nl_free]; try rewrite IHd; reflexivity. Qed.

Lemma nl_free_int_repr (n : Z) : nl_free (int_repr n) = true.
Proof.
  unfold int_repr. destruct (Z.to_int n) as [d|d]; cbn [NilEmpty.string_of_int nl_free];
    now rewrite nl_free_string_of_uint.
Qed.

Lemma nl_free_concat (sep : string) (l : list string) :
  nl_free sep = true -> Forall (fun s => nl_free s = true) l ->
  nl_free (String.concat sep l) = true.
Proof.
  intros Hsep Hl. induction Hl as [|s l Hs Hl IH]; [reflexivity|].
  destruct l as [|s' l]; [exact Hs|].
  change (String.concat sep (s :: s' :: l)) with (s +:+ sep +:+ String.concat sep (s' :: l)).
  now rewrite !nl_free_append, Hs, Hsep, IH.
Qed.

(** A line followed by its terminator is split off whole. *)
Lemma lines_from_line (x rest : string) :
  nl_free x = true ->
  forall cur, lines_from cur (x +:+ nl +:+ rest) = (cur +:+ x) :: lines_from EmptyString rest.
Proof.
  induction x as [|ch x IH]; intros Hx cur.
  - cbn. now rewrite append_empty_r.
  - cbn [nl_free] in Hx. apply andb_true_iff in Hx as [Hch Hx].
    rewrite append_cons. cbn [lines_from].
    destruct (Ascii.eqb ch "010"); [discriminate|].
    rewrite (IH Hx). now rewrite append_assoc.
Qed.

Lemma file_lines_terminated (xs : list string) :
  Forall (fun x => nl_free x = true) xs ->
  file_lines (concat_all (map (fun x => x +:+ nl) xs)) = xs.
Proof.
  unfold file_lines. induction 1 as [|x xs Hx Hxs IH]; [reflexivity|].
  cbn [map concat_all fold_right]. rewrite append_assoc.
  rewrite (lines_from_line x _ Hx). cbn [String.append]. now f_equal.
Qed.

Section Dumps.
Context {RT : Runtime}.

Lemma nl_free_floatstr (x : spec_float) :
  float_repr_one_line -> nl_free (floatstr x) = true.
Proof. intros H. destruct x as [s|[]| |s m e]; cbn [floatstr]; try apply H; reflexivity. Qed.

(** [json.dumps] never breaks a line. *)
Lemma nl_free_json_dumps (v : value) :
  float_repr_one_line -> nl_free (json_dumps v) = true.
Proof.
  intros Hfloat. induction v as [ |[]|n|x|s|items IH|entries IH] using value_ind;
    cbn [json_dumps]; try reflexivity.
  - apply nl_free_int_repr.
  - now apply nl_free_floatstr.
  - apply nl_free_encode_string.
  - rewrite !nl_free_append, nl_free_concat; [reflexivity..|].
    induction IH; constructor; assumption.
  - rewrite !nl_free_append, nl_free_concat; [reflexivity..|].
    induction IH as [|kv d Hkv Hd IHd]; constructor; [|exact IHd].
    now rewrite !nl_free_append, nl_free_encode_string, Hkv.
Qed.

Lemma file_lines_jsonl (json_objs : list value) :
  float_repr_one_line -> file_lines (jsonl_text json_objs) = map json_dumps json_objs.
Proof.
  intros Hfloat. unfold jsonl_text.
  rewrite <- (file_lines_terminated (map json_dumps json_objs)).
  - now rewrite map_map.
  - apply Forall_map. apply Forall_forall. intros o _. now apply nl_free_json_dumps.
Qed.

Lemma write_loop_text (fname : string) (json_objs : list value) (files : gmap string string) :
  forall content,
    fold_left (fun files o => file_write fname (json_dumps o +:+ nl) files) json_objs
      (<[fname := content]> files)
    = <[fname := content +:+ jsonl_text json_objs]> files.
Proof.
  unfold jsonl_text.
  induction json_objs as [|o json_objs IH]; intros content;
    cbn [fold_left map concat_all fold_right].
  - now rewrite append_empty_r.
  - unfold file_write at 2. rewrite alter_insert_eq, IH.
    now rewrite !append_assoc.
Qed.

(** What [write_jsonl] leaves in the file. *)
Lemma write_jsonl_text (fname : string) (json_objs : list value) (files : gmap string string) :
  write_jsonl fname json_objs files = <[fname := jsonl_text json_objs]> files.
Proof. unfold write_jsonl, open_wt. cbn zeta. now rewrite write_loop_text. Qed.

End Dumps.

(** *** [convert_to_jsonl] *)

Section Convert.
Context {RT : Runtime}.

Lemma convert_records_unfold (data : value) :
  convert_records data =
    (keys ← py_keys data;
     for_each keys (fun k json_objs => o ← convert_record data k; OK (json_objs ++ [o])) []).
Proof.
  unfold convert_records. destruct (py_keys data) as [keys|e]; [|reflexivity].
  rewrite !bind_OK. apply for_each_ext. intros k acc _. unfold convert_record.
  destruct (getitem_str data k) as [obj|e]; [|reflexivity]. rewrite !bind_OK.
  destruct (form_question obj) as [prompt|e]; [|reflexivity]. rewrite !bind_OK.
  now destruct (getitem_str obj "reasoning_required_pred").
Qed.

Lemma convert_record_entry (entries : list (string * value)) (k : string) (obj : value) :
  assoc k entries = Some obj ->
  convert_record (VDict entries) k =
    (prompt ← form_question obj;
     completion ← getitem_str obj "reasoning_required_pred";
     OK (VDict [("input", VStr prompt); ("output", completion)])).
Proof. intros H. unfold convert_record. cbn [getitem_str]. now rewrite H. Qed.

(** A record that cannot be converted makes the whole conversion fail. *)
Lemma convert_records_raises (entries : list (string * value)) (k : string) :
  In k (map fst entries) ->
  raises (convert_record (VDict entries) k) ->
  raises (convert_records (VDict entries)).
Proof.
  intros Hin [e He]. rewrite convert_records_unfold. cbn [py_keys]. rewrite bind_OK.
  apply (for_each_raises _ _ k Hin). intros acc. rewrite He. now exists e.
Qed.

(** An exception of the conversion is the exception of some record. *)
Lemma convert_records_raise_origin (entries : list (string * value)) (e : exn) :
  convert_records (VDict entries) = Raise e ->
  exists k, In k (map fst entries) /\ convert_record (VDict entries) k = Raise e.
Proof.
  rewrite convert_records_unfold. cbn [py_keys]. rewrite bind_OK.
  intros H. apply for_each_raise_origin in H as (k & acc & Hin & Hk).
  exists k. split; [exact Hin|].
  destruct (convert_record (VDict entries) k) as [o|e']; [discriminate|].
  rewrite bind_Raise in Hk. now injection Hk as ->.
Qed.


Lemma load_json_ok (files : gmap string string) (data_path text : string) (data : value) :
  files !! data_path = Some text -> json_loads text = Some data ->
  load_json data_path files = OK data.
Proof. intros Hf Hl. unfold load_json, read_text. rewrite Hf, bind_OK. now rewrite Hl. Qed.

(** The three places where [convert_to_jsonl] can raise, in order: loading
    the input, converting a record, opening the output. *)
Lemma convert_to_jsonl_cases (files : gmap string string) (data_path output_path : string) :
  convert_to_jsonl data_path output_path files =
    match load_json data_path files with
    | Raise e => (Raise e, files)
    | OK data =>
        match convert_records data with
        | Raise e => (Raise e, files)
        | OK json_objs =>
            match open_wt_error output_path with
            | Some e => (Raise e, files)
            | None => (OK json_objs, write_jsonl output_path json_objs files)
            end
        end
    end.
Proof.
  unfold convert_to_jsonl, write_jsonl_call.
  destruct (load_json data_path files) as [data|e]; [|reflexivity].
  destruct (convert_records data) as [json_objs|e]; [|reflexivity].
  now destruct (open_wt_error output_path).
Qed.

(** A failed conversion leaves the files as they were. *)
Lemma convert_to_jsonl_raises (files : gmap string string) (data_path output_path : string)
    (data : value) :
  load_json data_path files = OK data ->
  raises (convert_records data) ->
  exists e, convert_records data = Raise e /\
            convert_to_jsonl data_path output_path files = (Raise e, files).
Proof.
  intros Hload [e He]. exists e. split; [exact He|].
  unfold convert_to_jsonl. now rewrite Hload, He.
Qed.



End Convert.

Section ConvertClaims.
Context {RT : Runtime}.



Lemma missing_key_raises (entries : list (string * value)) (k : string) (obj : value) :
  assoc k entries = Some obj ->
  has_key obj "QUESTION" = false \/
  has_key obj "LABELS" = false \/
  has_key obj "reasoning_required_pred" = false \/
  (has_key obj "CONTEXTS" = false /\
   exists label labels, getitem_str obj "LABELS" = OK (VList (label :: labels))) ->
  raises (convert_record (VDict entries) k).
Proof.
  intros Hk Hmiss. rewrite (convert_record_entry entries k obj Hk).
  rewrite form_question_unfold. unfold has_key in Hmiss.
  destruct Hmiss as [H|[H|[H|[H (label & rest & Hl)]]]].
  - destruct (getitem_str obj "QUESTION") as [question|e]; [discriminate | (exists e; reflexivity)].
  - destruct (getitem_str obj "QUESTION") as [question|e]; [|(exists e; reflexivity)].
    destruct (getitem_str obj "LABELS") as [labels|e]; [discriminate | (exists e; reflexivity)].
  - match goal with |- raises (?m ≫= _) => destruct m as [prompt|e] end; [|(exists e; reflexivity)].
    rewrite bind_OK.
    destruct (getitem_str obj "reasoning_required_pred") as [c|e];
      [discriminate | (exists e; reflexivity)].
  - destruct (getitem_str obj "QUESTION") as [question|e]; [|(exists e; reflexivity)].
    rewrite Hl, !bind_OK. cbn [py_iter]. rewrite bind_OK.
    cbn [length seq for_each].
    destruct (getitem_str obj "CONTEXTS") as [contexts|e] eqn:Hc; [discriminate|].
    exists e. rewrite (context_step_raises obj e _ _ Hc). reflexivity.
Qed.

(** C5, amended.  When some record of the loaded mapping lacks 'QUESTION',
    'LABELS' or 'reasoning_required_pred', or lacks 'CONTEXTS' while its
    list of labels is not empty, [convert_to_jsonl] raises: it returns no
    result, the exception is the one a record raised, nothing is caught or
    replaced by a default, and no file is written. *)
Theorem convert_to_jsonl_missing_key (files : gmap string string)
    (data_path output_path text : string) (entries : list (string * value))
    (k : string) (obj : value) :
  files !! data_path = Some text ->
  json_loads text = Some (VDict entries) ->
  assoc k entries = Some obj ->
  has_key obj "QUESTION" = false \/
  has_key obj "LABELS" = false \/
  has_key obj "reasoning_required_pred" = false \/
  (has_key obj "CONTEXTS" = false /\
   exists label labels, getitem_str obj "LABELS" = OK (VList (label :: labels))) ->
  exists e,
    convert_to_jsonl data_path output_path files = (Raise e, files) /\
    exists k', In k' (map fst entries) /\ convert_record (VDict entries) k' = Raise e.
Proof.
  intros Hfile Hload Hk Hmiss.
  pose proof (load_json_ok files data_path text _ Hfile Hload) as Hdata.
  destruct (convert_to_jsonl_raises files data_path output_path _ Hdata) as (e & He & Hc).
  - apply (convert_records_raises entries k (assoc_In k entries obj Hk)).
    now apply (missing_key_raises entries k obj).
  - exists e. split; [exact Hc|]. now apply convert_records_raise_origin.
Qed.

(** C10.  [convert_to_jsonl] writes only after every record is converted:
    whenever it raises, the files are as before; a record on which
    [form_question] or the lookup of 'reasoning_required_pred' raises makes
    it raise; and when it returns, every record was converted and the
    returned objects are what [write_jsonl] wrote to [output_path]. *)
Theorem convert_to_jsonl_atomic (files : gmap string string)
    (data_path output_path : string) :
  (forall e files',
     convert_to_jsonl data_path output_path files = (Raise e, files') -> files' = files) /\
  (forall entries k obj,
     load_json data_path files = OK (VDict entries) ->
     assoc k entries = Some obj ->
     raises (form_question obj) \/ raises (getitem_str obj "reasoning_required_pred") ->
     exists e, convert_to_jsonl data_path output_path files = (Raise e, files)) /\
  (forall json_objs files',
     convert_to_jsonl data_path output_path files = (OK json_objs, files') ->
     exists data,
       load_json data_path files = OK data /\
       convert_records data = OK json_objs /\
       files' = write_jsonl output_path json_objs files).
Proof.
  split; [|split].
  - intros e files'. rewrite convert_to_jsonl_cases.
    destruct (load_json data_path files) as [data|e']; [|now intros [= _ <-]].
    destruct (convert_records data) as [json_objs|e']; [|now intros [= _ <-]].
    destruct (open_wt_error output_path) as [e'|]; [now intros [= _ <-] | discriminate].
  - intros entries k obj Hdata Hk Hfail.
    destruct (convert_to_jsonl_raises files data_path output_path _ Hdata) as (e & _ & Hc);
      [|now exists e].
    apply (convert_records_raises entries k (assoc_In k entries obj Hk)).
    rewrite (convert_record_entry entries k obj Hk).
    destruct Hfail as [[e He]|[e He]].
    + rewrite He. now exists e.
    + destruct (form_question obj) as [prompt|e']; [|now exists e'].
      rewrite bind_OK, He. now exists e.
  - intros json_objs files'. rewrite convert_to_jsonl_cases.
    destruct (load_json data_path files) as [data|e] eqn:Hdata; [|discriminate].
    destruct (convert_records data) as [objs|e] eqn:Hobjs; [|discriminate].
    destruct (open_wt_error output_path) as [e|]; [discriminate|].
    intros [= <- <-]. exists data. now rewrite Hobjs.
Qed.

End ConvertClaims.

(** *** The Mixtral notebook *)

Section MixtralClaims.
Context {RT : Runtime} {TK : Tokenizer}.

(** C3.  On a record with a 'note', [formatting_func] returns the fixed
    heading followed by the note, and no other field matters: records with
    the same note get the same prompt. *)
Theorem formatting_func_note (example note : value) :
  getitem_str example "note" = OK note ->
  formatting_func example
    = OK ("### The following is a note by Eevee the Dog: " +:+ py_str note) /\
  (forall example',
     getitem_str example' "note" = OK note ->
     formatting_func example' = formatting_func example).
Proof.
  intros Hn. unfold formatting_func. rewrite Hn, bind_OK. split; [reflexivity|].
  intros example' Hn'. now rewrite Hn'.
Qed.

(** C4, amended.  On a record with a 'note', when the tokenizer returns an
    encoding that has 'input_ids', [generate_and_tokenize_prompt2] returns
    that encoding with 'labels' set to the 'input_ids' sequence: every other
    field is the tokenizer's, and every sequence of the result is one the
    tokenizer produced. *)
Theorem generate_and_tokenize_prompt2_labels (prompt note : value)
    (encoding : gmap string (list Z)) (input_ids : list Z) :
  getitem_str prompt "note" = OK note ->
  tokenizer ("### The following is a note by Eevee the Dog: " +:+ py_str note)
    {| truncation := Some true; kw_max_length := Some 512%Z; padding := Some "max_length" |}
    = OK encoding ->
  encoding !! "input_ids" = Some input_ids ->
  exists result : gmap string (list Z),
    generate_and_tokenize_prompt2 prompt = OK result /\
    result = <["labels" := input_ids]> encoding /\
    result !! "labels" = Some input_ids /\
    (forall k, k <> "labels" -> result !! k = encoding !! k) /\
    (forall k ids, result !! k = Some ids -> exists k', encoding !! k' = Some ids).
Proof.
  intros Hn Htok Hids. exists (<["labels" := input_ids]> encoding).
  split; [|split; [reflexivity|split; [|split]]].
  - unfold generate_and_tokenize_prompt2, formatting_func.
    rewrite Hn, !bind_OK. unfold max_length. rewrite Htok, bind_OK. now rewrite Hids.
  - apply lookup_insert_eq.
  - intros k Hk. now apply lookup_insert_ne.
  - intros k ids. destruct (decide (k = "labels")) as [->|Hk].
    + rewrite lookup_insert_eq. intros [= <-]. now exists "input_ids".
    + rewrite lookup_insert_ne by congruence. intros H. now exists k.
Qed.

End MixtralClaims.

(** C6.  The LoRA and trainer settings are constants that reach the
    libraries as written: whatever the libraries are, [get_peft_model]
    receives a configuration with [r = 32] and [lora_alpha = 64], and
    [Trainer] receives arguments with [max_steps = 300],
    [per_device_train_batch_size = 2] and [learning_rate = 2.5e-5]. *)
Theorem training_configuration_verbatim :
  r config = 32%Z /\
  lora_alpha config = 64%Z /\
  (forall now,
     max_steps (training_arguments now) = 300%Z /\
     per_device_train_batch_size (training_arguments now) = 2%Z /\
     learning_rate (training_arguments now) = FloatLit 25 (-6)) /\
  forall (TR : Training) (model : Mixtral.model_t) (train val : dataset_t)
         (tok : tokenizer_t) (now : string),
    peft_cell model = get_peft_model model config /\
    trainer_cell model train val tok now
      = Trainer model train val (training_arguments now)
          (DataCollatorForLanguageModeling tok false).
Proof. repeat split; reflexivity. Qed.

(** *** The BioMistral notebook *)

(** C7.  The generation cell prints the tokenizer's decoding, special tokens
    skipped, of the first sequence of one [generate] call on the tokenised
    prompt with [max_new_tokens = 100] and [repetition_penalty = 1.15], and
    nothing else. *)
Theorem generation_cell_prints {G : BioMistral.Generation}
    (model : BioMistral.model_t) (stdout : string) (sequence : list Z) :
  BioMistral.model_generate (BioMistral.model_eval model)
    (BioMistral.encoding_to (BioMistral.eval_tokenizer "The best way to " "pt") "cuda")
    100 (FloatLit 115 (-2)) !! 0%nat = Some sequence ->
  BioMistral.generation_cell model stdout
    = OK (stdout +:+ BioMistral.eval_tokenizer_decode sequence true +:+ nl).
Proof.
  intros Hgen. unfold BioMistral.generation_cell, BioMistral.eval_prompt, BioMistral.print.
  cbn zeta. now rewrite Hgen.
Qed.


(** *** The properties on the sample inputs *)

Lemma sample_float_repr_one_line : @float_repr_one_line sample_runtime.
Proof. intros x. reflexivity. Qed.

Lemma form_question_template_witness :
  @form_question sample_runtime record_ok
  = OK ("QUESTION:Is it?" +:+ nl +:+ "CONTEXT: c1" +:+ nl +:+ "c2" +:+ nl +:+
        "TARGET: the answer to the question given the context is (yes|no|maybe): ").
Proof.
  apply (@form_question_template sample_runtime record_ok (VStr "Is it?")
           [VStr "BACKGROUND"; VStr "RESULTS"] [VStr "c1"; VStr "c2"; VStr "c3"]);
    [reflexivity | reflexivity | reflexivity | simpl; lia].
Defined.

Lemma form_question_total_iff_witness :
  @form_question sample_runtime record_short = Raise IndexError /\
  @form_question sample_runtime record_cut = @form_question sample_runtime record_ok.
Proof.
  split.
  - refine (proj1 (proj2 (@form_question_total_iff sample_runtime record_short
                            (VStr "Is it?") [VStr "BACKGROUND"] [] _ _ _)) _);
      [reflexivity | reflexivity | reflexivity | simpl; lia].
  - refine (proj2 (proj2 (@form_question_total_iff sample_runtime record_ok
                            (VStr "Is it?") [VStr "BACKGROUND"; VStr "RESULTS"]
                            [VStr "c1"; VStr "c2"; VStr "c3"] _ _ _)) _ record_cut _ _ _);
      [reflexivity | reflexivity | reflexivity | simpl; lia
      | reflexivity | reflexivity | reflexivity].
Defined.

Lemma form_question_ignores_labels_witness :
  @form_question sample_runtime record_ok = @form_question sample_runtime record_relabelled /\
  exists prompt, @form_question sample_runtime record_ok = OK prompt /\
                 @form_question sample_runtime record_relabelled = OK prompt.
Proof.
  destruct (@form_question_ignores_labels sample_runtime record_ok record_relabelled
              [VStr "BACKGROUND"; VStr "RESULTS"] [VStr "METHODS"; VInt 7]
              eq_refl eq_refl eq_refl eq_refl eq_refl) as [Heq Hprompt].
  split; [exact Heq|].
  apply (Hprompt (VStr "Is it?") [VStr "c1"; VStr "c2"; VStr "c3"]);
    [reflexivity | reflexivity | simpl; lia].
Defined.



Lemma convert_to_jsonl_missing_key_witness :
  exists e,
    @convert_to_jsonl sample_runtime "data.json" "out.jsonl" (files_with data_no_question)
      = (Raise e, files_with data_no_question) /\
    exists k', In k' ["101"; "102"] /\
               @convert_record sample_runtime data_no_question k' = Raise e.
Proof.
  apply (@convert_to_jsonl_missing_key sample_runtime (files_with data_no_question)
           "data.json" "out.jsonl" (@json_dumps base_runtime data_no_question)
           [("101", record_ok); ("102", record_no_question)] "102" record_no_question).
  - reflexivity.
  - vm_compute. reflexivity.
  - reflexivity.
  - left. reflexivity.
Defined.

(** A record without 'CONTEXTS' and without labels is converted: the
    conversion returns and writes its line. *)
Lemma convert_to_jsonl_no_contexts_converted :
  has_key record_no_contexts "CONTEXTS" = false /\
  @json_loads sample_runtime (@json_dumps base_runtime data_no_contexts)
    = Some data_no_contexts /\
  @convert_to_jsonl sample_runtime "data.json" "out.jsonl" (files_with data_no_contexts)
    = (OK objs_no_contexts,
       <["out.jsonl" := @jsonl_text sample_runtime objs_no_contexts]>
         (files_with data_no_contexts)).
Proof. repeat split; vm_compute; reflexivity. Qed.

Lemma convert_to_jsonl_atomic_witness :
  exists e,
    @convert_to_jsonl sample_runtime "data.json" "out.jsonl" (files_with data_short)
      = (Raise e, files_with data_short).
Proof.
  refine (proj1 (proj2 (@convert_to_jsonl_atomic sample_runtime (files_with data_short)
                          "data.json" "out.jsonl"))
            [("101", record_ok); ("102", record_short)] "102" record_short _ _ _).
  - vm_compute. reflexivity.
  - reflexivity.
  - left. exists IndexError. reflexivity.
Defined.

Lemma formatting_func_note_witness :
  @formatting_func sample_runtime note_record
    = OK "### The following is a note by Eevee the Dog: Woof" /\
  (forall example',
     getitem_str example' "note" = OK (VStr "Woof") ->
     @formatting_func sample_runtime example' = @formatting_func sample_runtime note_record).
Proof.
  apply (@formatting_func_note sample_runtime note_record (VStr "Woof")). reflexivity.
Defined.

(** On a record without a 'note' the function raises before the tokenizer
    is called. *)
Lemma generate_and_tokenize_prompt2_without_note :
  @generate_and_tokenize_prompt2 sample_runtime char_tokenizer record_without_note
    = Raise (KeyError (VStr "note")).
Proof. reflexivity. Qed.

Lemma generate_and_tokenize_prompt2_labels_witness :
  exists result : gmap string (list Z),
    @generate_and_tokenize_prompt2 sample_runtime char_tokenizer note_record = OK result /\
    result !! "labels" = result !! "input_ids" /\
    result !! "attention_mask"
      = Some (map (fun _ => 1%Z)
                  (list_ascii_of_string "### The following is a note by Eevee the Dog: Woof")).
Proof.
  destruct (@generate_and_tokenize_prompt2_labels sample_runtime char_tokenizer
              note_record (VStr "Woof") _ _ eq_refl eq_refl eq_refl)
    as (result & Hres & _ & Hlabels & Hframe & _).
  exists result. split; [exact Hres|]. split.
  - rewrite Hlabels. symmetry. rewrite Hframe by discriminate. reflexivity.
  - rewrite Hframe by discriminate. reflexivity.
Defined.

Lemma generation_cell_prints_witness :
  @BioMistral.generation_cell echo_generation tt EmptyString
    = OK ("The best way to !" +:+ nl).
Proof.
  apply (@generation_cell_prints echo_generation tt EmptyString
           (map (fun ch => Z.of_N (N_of_ascii ch)) (list_ascii_of_string "The best way to !"))).
  reflexivity.
Defined.

(** ** Further properties *)

(** *** [form_question]: missing keys, no labels, shape of the prompt *)

Section FormQuestionMore.
Context {RT : Runtime}.

(** X1.  The keys of a record are looked up in a fixed order, and the first
    one that is missing names the [KeyError]: 'QUESTION', then 'LABELS',
    then, only when there is a label, 'CONTEXTS'.  A record that is not a
    dictionary raises [TypeError]. *)
Theorem form_question_key_errors (entries : list (string * value)) :
  (assoc "QUESTION" entries = None ->
   form_question (VDict entries) = Raise (KeyError (VStr "QUESTION"))) /\
  (forall question,
     assoc "QUESTION" entries = Some question ->
     assoc "LABELS" entries = None ->
     form_question (VDict entries) = Raise (KeyError (VStr "LABELS"))) /\
  (forall question label labels,
     assoc "QUESTION" entries = Some question ->
     assoc "LABELS" entries = Some (VList (label :: labels)) ->
     assoc "CONTEXTS" entries = None ->
     form_question (VDict entries) = Raise (KeyError (VStr "CONTEXTS"))) /\
  (forall obj, (forall d, obj <> VDict d) -> form_question obj = Raise TypeError).
Proof.
  repeat split.
  - intros Hq. rewrite form_question_unfold. cbn [getitem_str]. now rewrite Hq.
  - intros question Hq Hl. rewrite form_question_unfold. cbn [getitem_str].
    now rewrite Hq, bind_OK, Hl.
  - intros question label labels Hq Hl Hc. rewrite form_question_unfold.
    cbn [getitem_str]. rewrite Hq, bind_OK, Hl, bind_OK. cbn [py_iter].
    rewrite bind_OK. cbn [length seq for_each].
    rewrite (context_step_raises (VDict entries) (KeyError (VStr "CONTEXTS")));
      [reflexivity|].
    cbn [getitem_str]. now rewrite Hc.
  - intros obj Hobj. rewrite form_question_unfold.
    destruct obj; try reflexivity. now destruct (Hobj entries0).
Qed.

(** X2.  Without labels the contexts are never read: whatever 'CONTEXTS' is,
    and even when it is missing, the prompt is the question followed by an
    empty context section. *)
Theorem form_question_no_labels (obj question labels : value) :
  getitem_str obj "QUESTION" = OK question ->
  getitem_str obj "LABELS" = OK labels ->
  py_iter labels = OK [] ->
  form_question obj =
    OK ("QUESTION:" +:+ py_str question +:+ nl +:+
        "CONTEXT: " +:+
        "TARGET: the answer to the question given the context is (yes|no|maybe): ").
Proof.
  intros Hq Hl Hi. rewrite form_question_unfold, Hq, bind_OK, Hl, bind_OK, Hi, bind_OK.
  cbn [length seq for_each]. rewrite bind_OK. now rewrite !append_assoc.
Qed.

Lemma context_step_extends (obj : value) (i : nat) (st st' : string) :
  context_step obj i st = OK st' -> exists middle, st' = st +:+ middle.
Proof.
  unfold context_step.
  destruct (getitem_str obj "CONTEXTS") as [contexts|e]; [|discriminate].
  rewrite bind_OK.
  destruct (getitem_int contexts i) as [context|e]; [|discriminate].
  rewrite bind_OK. intros [= <-]. now exists (py_str context +:+ nl).
Qed.

(** The loop only appends to the prompt. *)
Lemma context_loop_extends (obj : value) (n : nat) :
  forall start st st',
    for_each (seq start n) (context_step obj) st = OK st' ->
    exists middle, st' = st +:+ middle.
Proof.
  induction n as [|n IH]; intros start st st'; cbn [seq for_each].
  - intros [= <-]. exists EmptyString. now rewrite append_empty_r.
  - destruct (context_step obj start st) as [st1|e] eqn:Hstep; [|discriminate].
    rewrite bind_OK. intros H.
    destruct (context_step_extends _ _ _ _ Hstep) as [first ->].
    destruct (IH _ _ _ H) as [middle ->].
    exists (first +:+ middle). now rewrite !append_assoc.
Qed.

(** X3.  Every prompt [form_question] returns, on any record, opens with
    the question line and "CONTEXT: " and closes with the answer cue. *)
Theorem form_question_shape (obj : value) (prompt : string) :
  form_question obj = OK prompt ->
  exists question middle,
    getitem_str obj "QUESTION" = OK question /\
    prompt = "QUESTION:" +:+ py_str question +:+ nl +:+ "CONTEXT: " +:+ middle +:+
             "TARGET: the answer to the question given the context is (yes|no|maybe): ".
Proof.
  rewrite form_question_unfold.
  destruct (getitem_str obj "QUESTION") as [question|e]; [|discriminate].
  rewrite bind_OK.
  destruct (getitem_str obj "LABELS") as [labels|e]; [|discriminate].
  rewrite bind_OK.
  destruct (py_iter labels) as [items|e]; [|discriminate].
  rewrite bind_OK.
  destruct (for_each _ _ _) as [st|e] eqn:Hloop; [|discriminate].
  rewrite bind_OK. intros [= <-].
  destruct (context_loop_extends obj _ _ _ _ Hloop) as [middle ->].
  exists question, middle. split; [reflexivity|]. now rewrite !append_assoc.
Qed.

End FormQuestionMore.

(** *** [write_jsonl] and [convert_to_jsonl]: files, edge cases, composition *)

Section ConvertMore.
Context {RT : Runtime}.

(** X4.  [write_jsonl] replaces the file: what the file held before, or an
    earlier [write_jsonl] put there, is gone, and no other file changes. *)
Theorem write_jsonl_replaces (fname : string) (json_objs : list value)
    (files : gmap string string) :
  (forall content,
     write_jsonl fname json_objs (<[fname := content]> files)
     = write_jsonl fname json_objs files) /\
  (forall earlier,
     write_jsonl fname json_objs (write_jsonl fname earlier files)
     = write_jsonl fname json_objs files) /\
  (forall other, other <> fname ->
     write_jsonl fname json_objs files !! other = files !! other).
Proof.
  repeat split.
  - intros content. rewrite !write_jsonl_text. apply insert_insert_eq.
  - intros earlier. rewrite !write_jsonl_text. apply insert_insert_eq.
  - intros other Hne. rewrite write_jsonl_text. apply lookup_insert_ne. congruence.
Qed.

(** X5.  Read back line by line, the file [write_jsonl] wrote gives the
    serialisations of the objects, one line each and in order; an empty list
    leaves an empty file. *)
Theorem write_jsonl_lines (fname : string) (json_objs : list value)
    (files : gmap string string) :
  float_repr_one_line ->
  exists text,
    write_jsonl fname json_objs files !! fname = Some text /\
    file_lines text = map json_dumps json_objs /\
    length (file_lines text) = length json_objs /\
    (json_objs = [] -> text = EmptyString).
Proof.
  intros Hfloat. exists (jsonl_text json_objs).
  rewrite write_jsonl_text, lookup_insert_eq, (file_lines_jsonl _ Hfloat), length_map.
  repeat split. now intros ->.
Qed.

(** X6.  Failures before the first record: an input that cannot be opened
    or read raises the exception of that open or read, an input that does
    not parse the exception of [json.load], and a parsed input that is not
    an object [AttributeError]; in each case no file changes and the output
    is not opened. *)
Theorem convert_to_jsonl_load_errors (files : gmap string string)
    (data_path output_path : string) :
  (files !! data_path = None ->
   convert_to_jsonl data_path output_path files = (Raise (read_error data_path), files)) /\
  (forall text,
     files !! data_path = Some text -> json_loads text = None ->
     convert_to_jsonl data_path output_path files = (Raise (json_loads_error text), files)) /\
  (forall text data,
     files !! data_path = Some text -> json_loads text = Some data ->
     (forall entries, data <> VDict entries) ->
     convert_to_jsonl data_path output_path files = (Raise AttributeError, files)).
Proof.
  rewrite convert_to_jsonl_cases. unfold load_json, read_text. repeat split.
  - intros Hf. now rewrite Hf.
  - intros text Hf Hl. rewrite Hf, bind_OK. now rewrite Hl.
  - intros text data Hf Hl Hd. rewrite Hf, bind_OK, Hl.
    destruct data; try reflexivity. now destruct (Hd entries).
Qed.

(** X7.  An empty mapping still reaches the output: when [output_path]
    can be opened for writing the call returns the empty list and the file is
    created, or emptied; when the open raises, the call raises that
    exception and no file changes. *)
Theorem convert_to_jsonl_empty (files : gmap string string)
    (data_path output_path text : string) :
  files !! data_path = Some text ->
  json_loads text = Some (VDict []) ->
  convert_to_jsonl data_path output_path files
    = match open_wt_error output_path with
      | None => (OK [], <[output_path := EmptyString]> files)
      | Some e => (Raise e, files)
      end.
Proof.
  intros Hf Hl. rewrite convert_to_jsonl_cases.
  rewrite (load_json_ok files data_path text _ Hf Hl).
  now destruct (open_wt_error output_path).
Qed.

(** What a collecting loop returns was collected element by element. *)
Lemma for_each_collected {A B : Type} (f : A -> result B) (xs : list A) :
  forall acc res,
    for_each xs (fun x acc => y ← f x; OK (acc ++ [y])) acc = OK res ->
    exists ys, res = acc ++ ys /\ Forall2 (fun x y => f x = OK y) xs ys.
Proof.
  induction xs as [|x xs IH]; intros acc res; cbn [for_each].
  - intros [= <-]. exists []. split; [now rewrite app_nil_r | constructor].
  - destruct (f x) as [y|e] eqn:E; [|discriminate]. rewrite !bind_OK.
    intros H. destruct (IH _ _ H) as (ys & -> & Hys).
    exists (y :: ys). split; [now rewrite <- List.app_assoc | now constructor].
Qed.

(** X8.  Whenever [convert_to_jsonl] returns, the input was an object, the
    returned list has one [{"input": prompt, "output": completion}] per key
    in key order, made from the record under that key, the file at
    [output_path] is the JSON-lines text of that list, and no other file
    changed. *)
Theorem convert_to_jsonl_returns (files files' : gmap string string)
    (data_path output_path : string) (json_objs : list value) :
  convert_to_jsonl data_path output_path files = (OK json_objs, files') ->
  exists entries,
    load_json data_path files = OK (VDict entries) /\
    Forall2 (fun k o =>
               exists obj prompt completion,
                 assoc k entries = Some obj /\
                 form_question obj = OK prompt /\
                 getitem_str obj "reasoning_required_pred" = OK completion /\
                 o = VDict [("input", VStr prompt); ("output", completion)])
            (map fst entries) json_objs /\
    files' = <[output_path := jsonl_text json_objs]> files.
Proof.
  rewrite convert_to_jsonl_cases.
  destruct (load_json data_path files) as [data|e] eqn:Hload; [|discriminate].
  destruct (convert_records data) as [objs|e] eqn:Hconv; [|discriminate].
  destruct (open_wt_error output_path) as [e|]; [discriminate|].
  intros [= <- <-]. rewrite write_jsonl_text.
  rewrite convert_records_unfold in Hconv.
  destruct data as [ | | | | | |entries]; try discriminate.
  cbn [py_keys] in Hconv. rewrite bind_OK in Hconv.
  apply for_each_collected in Hconv as (ys & -> & Hys).
  exists entries. repeat split. cbn [app].
  eapply Forall2_impl; [exact Hys|].
  intros k o Hk. cbv beta in Hk. unfold convert_record in Hk. cbn [getitem_str] in Hk.
  destruct (assoc k entries) as [obj|]; [|discriminate]. rewrite bind_OK in Hk.
  destruct (form_question obj) as [prompt|e] eqn:Hf; [|discriminate].
  rewrite bind_OK in Hk.
  destruct (getitem_str obj "reasoning_required_pred") as [completion|e] eqn:Hp;
    [|discriminate].
  rewrite bind_OK in Hk. injection Hk as <-.
  now exists obj, prompt, completion.
Qed.

(** The first failing element decides the exception of a loop. *)
Lemma for_each_first_failure {A S : Type} (body : A -> S -> result S)
    (before after : list A) (x : A) (e : exn) :
  (forall y st, In y before -> exists st', body y st = OK st') ->
  (forall st, body x st = Raise e) ->
  forall st, for_each (before ++ x :: after) body st = Raise e.
Proof.
  induction before as [|y before IH]; intros Hb Hx st; cbn [app for_each].
  - now rewrite Hx.
  - destruct (Hb y st) as [st' ->]; [now left|]. rewrite bind_OK.
    apply IH; [|exact Hx]. intros z st'' Hz. apply Hb. now right.
Qed.

(** X9.  Records are converted in key order and the first one that fails
    decides the outcome: its exception is the one raised, later records are
    not looked at, and no file changes. *)
Theorem convert_to_jsonl_first_failure (files : gmap string string)
    (data_path output_path : string) (entries : list (string * value))
    (before after : list string) (k : string) (e : exn) :
  load_json data_path files = OK (VDict entries) ->
  map fst entries = before ++ k :: after ->
  (forall k', In k' before -> exists o, convert_record (VDict entries) k' = OK o) ->
  convert_record (VDict entries) k = Raise e ->
  convert_to_jsonl data_path output_path files = (Raise e, files).
Proof.
  intros Hload Hkeys Hbefore Hk. rewrite convert_to_jsonl_cases, Hload.
  rewrite convert_records_unfold. cbn [py_keys]. rewrite bind_OK, Hkeys.
  rewrite (for_each_first_failure _ before after k e); [reflexivity| |].
  - intros k' acc Hin. destruct (Hbefore k' Hin) as [o ->]. rewrite bind_OK. eauto.
  - intros acc. now rewrite Hk.
Qed.

End ConvertMore.

(** *** The three splits and the data settings *)

Section SplitsMore.
Context {RT : Runtime}.

Lemma convert_to_jsonl_ok_files (files files' : gmap string string)
    (data_path output_path : string) (json_objs : list value) :
  convert_to_jsonl data_path output_path files = (OK json_objs, files') ->
  files' = <[output_path := jsonl_text json_objs]> files.
Proof.
  rewrite convert_to_jsonl_cases.
  destruct (load_json data_path files) as [data|e]; [|discriminate].
  destruct (convert_records data) as [objs|e]; [|discriminate].
  destruct (open_wt_error output_path) as [e|]; [discriminate|].
  intros [= <- <-]. apply write_jsonl_text.
Qed.


(** X11.  When the cell that converts the three splits succeeds, the files
    that the data settings name for training, validation and test exist and
    hold the JSON-lines text of the train, dev and test conversions, and every
    other file, the three inputs among them, is as before. *)
Theorem convert_splits_feed_settings (files files' : gmap string string)
    (test_json_objs train_json_objs dev_json_objs : list value) :
  NemoCells.convert_splits files
    = (OK (test_json_objs, train_json_objs, dev_json_objs), files') ->
  (exists name,
     NemoCells.split_file_names NemoCells.data_settings "train_ds" = OK [VStr name] /\
     files' !! name = Some (jsonl_text train_json_objs)) /\
  (exists name,
     NemoCells.split_file_names NemoCells.data_settings "validation_ds" = OK [VStr name] /\
     files' !! name = Some (jsonl_text dev_json_objs)) /\
  (exists name,
     NemoCells.split_file_names NemoCells.data_settings "test_ds" = OK [VStr name] /\
     files' !! name = Some (jsonl_text test_json_objs)) /\
  (forall path,
     path <> "pubmedqa_test.jsonl" -> path <> "pubmedqa_train.jsonl" ->
     path <> "pubmedqa_val.jsonl" ->
     files' !! path = files !! path).
Proof.
  unfold NemoCells.convert_splits.
  destruct (convert_to_jsonl "pubmedqa/data/test_set.json" _ files)
    as [[te|e] files1] eqn:H1; [|discriminate].
  destruct (convert_to_jsonl "pubmedqa/data/pqal_fold0/train_set.json" _ files1)
    as [[tr|e] files2] eqn:H2; [|discriminate].
  destruct (convert_to_jsonl "pubmedqa/data/pqal_fold0/dev_set.json" _ files2)
    as [[de|e] files3] eqn:H3; [|discriminate].
  intros [= <- <- <- <-].
  apply convert_to_jsonl_ok_files in H1, H2, H3. subst files1 files2 files3.
  split; [|split; [|split]].
  - exists "pubmedqa_train.jsonl". split; [reflexivity|].
    rewrite lookup_insert_ne by discriminate. apply lookup_insert_eq.
  - exists "pubmedqa_val.jsonl". split; [reflexivity|]. apply lookup_insert_eq.
  - exists "pubmedqa_test.jsonl". split; [reflexivity|].
    rewrite !lookup_insert_ne by discriminate. apply lookup_insert_eq.
  - intros path Hte Htr Hde. now rewrite !lookup_insert_ne by congruence.
Qed.


End SplitsMore.

(** *** Tokenising a prompt *)

Section TokenizeMore.
Context {RT : Runtime} {TK : Tokenizer}.

(** X12.  [generate_and_tokenize_prompt2] returns exactly when the record
    has a 'note' and the tokenizer returns an encoding with 'input_ids'; and
    what it returns always has 'labels' and 'input_ids', holding the same
    sequence. *)
Theorem generate_and_tokenize_prompt2_returned (prompt : value) :
  ((exists result, generate_and_tokenize_prompt2 prompt = OK result) <->
   (exists note encoding,
      getitem_str prompt "note" = OK note /\
      tokenizer ("### The following is a note by Eevee the Dog: " +:+ py_str note)
        {| truncation := Some true; kw_max_length := Some 512%Z;
           padding := Some "max_length" |} = OK encoding /\
      is_Some (encoding !! "input_ids"))) /\
  (forall result : gmap string (list Z),
     generate_and_tokenize_prompt2 prompt = OK result ->
     is_Some (result !! "input_ids") /\ result !! "labels" = result !! "input_ids").
Proof.
  unfold generate_and_tokenize_prompt2, formatting_func, max_length.
  destruct (getitem_str prompt "note") as [note|e]; rewrite ?bind_OK, ?bind_Raise.
  - destruct (tokenizer _ _) as [encoding|e] eqn:Htok; rewrite ?bind_OK, ?bind_Raise.
    + destruct (encoding !! "input_ids") as [input_ids|] eqn:Hids.
      * split.
        -- split; [|eauto]. intros _. exists note, encoding.
           rewrite Htok, Hids. repeat split. eauto.
        -- intros result [= <-].
           rewrite lookup_insert_eq, lookup_insert_ne, Hids by discriminate. eauto.
      * split; [|discriminate]. split; [intros [? [=]]|].
        intros (note' & encoding' & [= <-] & Htok' & [ids Hids']).
        rewrite Htok in Htok'. injection Htok' as <-. congruence.
    + split; [|discriminate]. split; [intros [? [=]]|].
      intros (note' & encoding' & [= <-] & Htok' & _). congruence.
  - split; [|discriminate]. split; [intros [? [=]]|].
    intros (note' & encoding' & [=] & _).
Qed.

(** X13.  [formatting_func] keeps string notes apart: two records whose
    notes are strings get the same prompt only when the notes are equal. *)
Theorem formatting_func_injective (example1 example2 : value) (note1 note2 : string) :
  getitem_str example1 "note" = OK (VStr note1) ->
  getitem_str example2 "note" = OK (VStr note2) ->
  formatting_func example1 = formatting_func example2 ->
  note1 = note2.
Proof.
  intros H1 H2. unfold formatting_func. rewrite H1, H2, !bind_OK. cbn [py_str].
  intros [= H]. exact H.
Qed.

End TokenizeMore.

(** *** The length histogram *)

Import MixtralDiagnostics.

Lemma sized_input_length (row : value) :
  sized_input_ids row = true ->
  (input_ids ← getitem_str row "input_ids"; py_len input_ids) = OK (input_length row).
Proof.
  unfold sized_input_ids, input_length.
  destruct (getitem_str row "input_ids") as [input_ids|e]; [|discriminate].
  rewrite bind_OK. now destruct (py_len input_ids).
Qed.

Lemma unsized_raises (row : value) :
  sized_input_ids row = false ->
  raises (input_ids ← getitem_str row "input_ids"; py_len input_ids).
Proof.
  unfold sized_input_ids.
  destruct (getitem_str row "input_ids") as [input_ids|e]; [|now exists e].
  rewrite bind_OK. destruct (py_len input_ids) as [n|e]; [discriminate | now exists e].
Qed.

Lemma input_lengths_unfold (dataset : list value) :
  input_lengths dataset =
    for_each dataset
      (fun x lengths =>
         n ← (input_ids ← getitem_str x "input_ids"; py_len input_ids);
         OK (lengths ++ [n]))
      [].
Proof.
  unfold input_lengths. apply for_each_ext. intros x acc _.
  destruct (getitem_str x "input_ids") as [input_ids|e]; [|reflexivity].
  rewrite !bind_OK. now destruct (py_len input_ids).
Qed.

Lemma input_lengths_ok (dataset : list value) :
  forallb sized_input_ids dataset = true ->
  input_lengths dataset = OK (map input_length dataset).
Proof.
  intros H. rewrite input_lengths_unfold.
  rewrite (for_each_collect _ _ input_length); [reflexivity|].
  intros x Hx. apply sized_input_length.
  rewrite forallb_forall in H. now apply H.
Qed.

Lemma input_lengths_raises (dataset : list value) :
  forallb sized_input_ids dataset = false -> raises (input_lengths dataset).
Proof.
  intros H. rewrite input_lengths_unfold.
  assert (Hex : exists x, In x dataset /\ sized_input_ids x = false).
  { induction dataset as [|x dataset IH]; [discriminate|].
    cbn [forallb] in H. destruct (sized_input_ids x) eqn:E.
    - destruct (IH H) as (y & Hy & Hs). exists y. split; [now right | exact Hs].
    - exists x. split; [now left | exact E]. }
  destruct Hex as (x & Hin & Hx).
  apply (for_each_raises _ _ x Hin). intros acc.
  destruct (unsized_raises x Hx) as [e ->]. now exists e.
Qed.

(** X14.  When every row of both datasets has an 'input_ids' with a length,
    [plot_data_lengths] prints the number of rows of the two datasets
    together and hands the histogram one length per row, the training rows
    first. *)
Theorem plot_data_lengths_counts (tokenized_train_dataset tokenized_val_dataset : list value)
    (stdout : string) :
  forallb sized_input_ids tokenized_train_dataset = true ->
  forallb sized_input_ids tokenized_val_dataset = true ->
  exists calls,
    plot_data_lengths tokenized_train_dataset tokenized_val_dataset stdout
      = (OK calls,
         stdout +:+ int_repr (Z.of_nat (length tokenized_train_dataset
                                        + length tokenized_val_dataset)) +:+ nl) /\
    In (plt_hist (map input_length tokenized_train_dataset
                  ++ map input_length tokenized_val_dataset)
                 20 (FloatLit 7 (-1)) "blue") calls.
Proof.
  intros Htrain Hval. unfold plot_data_lengths.
  rewrite (input_lengths_ok _ Htrain), bind_OK, (input_lengths_ok _ Hval), bind_OK.
  eexists. split.
  - unfold print. now rewrite length_app, !length_map.
  - right. left. reflexivity.
Qed.

(** X15.  [plot_data_lengths] raises exactly when some row of either
    dataset lacks an 'input_ids' with a length, and then it has printed
    nothing, also when the row is the last of the validation set. *)
Theorem plot_data_lengths_raises (tokenized_train_dataset tokenized_val_dataset : list value)
    (stdout : string) :
  (exists e,
     plot_data_lengths tokenized_train_dataset tokenized_val_dataset stdout
       = (Raise e, stdout))
  <-> forallb sized_input_ids (tokenized_train_dataset ++ tokenized_val_dataset) = false.
Proof.
  rewrite forallb_app. unfold plot_data_lengths.
  destruct (forallb sized_input_ids tokenized_train_dataset) eqn:Htrain.
  - rewrite (input_lengths_ok _ Htrain), bind_OK. cbn [andb].
    destruct (forallb sized_input_ids tokenized_val_dataset) eqn:Hval.
    + rewrite (input_lengths_ok _ Hval), bind_OK.
      split; [intros [e [=]] | discriminate].
    + destruct (input_lengths_raises _ Hval) as [e ->]. rewrite bind_Raise.
      split; [reflexivity | intros _; now exists e].
  - destruct (input_lengths_raises _ Htrain) as [e ->]. rewrite bind_Raise.
    split; [reflexivity | intros _; now exists e].
Qed.

(** *** Counting the trainable parameters *)

Lemma total_cons (n : N) (sizes : list N) : total (n :: sizes) = (n + total sizes)%N.
Proof. reflexivity. Qed.

Lemma count_parameters_from (named_parameters : list (string * parameter)) :
  forall trainable_params all_param,
    fold_left
      (fun '(trainable_params, all_param) '(_, param) =>
         let all_param := (all_param + numel param)%N in
         let trainable_params :=
           if requires_grad param then (trainable_params + numel param)%N
           else trainable_params in
         (trainable_params, all_param))
      named_parameters (trainable_params, all_param)
    = ((trainable_params
        + total (map (fun np => numel (snd np))
                     (List.filter (fun np => requires_grad (snd np)) named_parameters)))%N,
       (all_param + total (map (fun np => numel (snd np)) named_parameters))%N).
Proof.
  induction named_parameters as [|[name param] ps IH]; intros t a; cbn [fold_left].
  - cbn. now rewrite !N.add_0_r.
  - cbn zeta. rewrite IH. cbn [List.filter map snd].
    destruct (requires_grad param); cbn [map snd]; rewrite ?total_cons;
      f_equal; lia.
Qed.

Lemma total_filter_le (named_parameters : list (string * parameter)) :
  (total (map (fun np => numel (snd np))
              (List.filter (fun np => requires_grad (snd np)) named_parameters))
   <= total (map (fun np => numel (snd np)) named_parameters))%N.
Proof.
  induction named_parameters as [|[name param] ps IH]; [reflexivity|].
  cbn [List.filter map snd].
  destruct (requires_grad param); cbn [map snd]; rewrite ?total_cons; lia.
Qed.

(** X16.  The loop of [print_trainable_parameters] ends with the total size
    of the parameters that require gradients and the total size of all
    parameters; the first never exceeds the second. *)
Theorem count_parameters_sums (named_parameters : list (string * parameter)) :
  count_parameters named_parameters
    = (total (map (fun np => numel (snd np))
                  (List.filter (fun np => requires_grad (snd np)) named_parameters)),
       total (map (fun np => numel (snd np)) named_parameters)) /\
  (fst (count_parameters named_parameters) <= snd (count_parameters named_parameters))%N.
Proof.
  unfold count_parameters. rewrite count_parameters_from, !N.add_0_l.
  split; [reflexivity | apply total_filter_le].
Qed.

Lemma total_zero (sizes : list N) : total sizes = 0%N <-> Forall (fun n => n = 0%N) sizes.
Proof.
  induction sizes as [|n sizes IH].
  - split; [constructor | reflexivity].
  - rewrite total_cons. split.
    + intros H. constructor; [lia|]. apply IH. lia.
    + intros H. inversion H as [|? ? Hn Hs]; subst. apply IH in Hs. lia.
Qed.

(** X17.  [print_trainable_parameters] divides by the total size: it raises
    [ZeroDivisionError], printing nothing, exactly when every parameter is
    empty, as for a model without parameters; otherwise it prints one line
    that opens with the size of the trainable parameters. *)
Theorem print_trainable_parameters_zero `{TrueDivision}
    (named_parameters : list (string * parameter)) (stdout : string) :
  (print_trainable_parameters named_parameters stdout = inl ZeroDivisionError
   <-> Forall (fun np => numel (snd np) = 0%N) named_parameters) /\
  (~ Forall (fun np => numel (snd np) = 0%N) named_parameters ->
   exists rest,
     print_trainable_parameters named_parameters stdout
       = inr (stdout +:+ "trainable params: " +:+
              int_repr (Z.of_N (fst (count_parameters named_parameters))) +:+
              " || all params: " +:+ rest +:+ nl)).
Proof.
  assert (Hall : snd (count_parameters named_parameters) = 0%N
                 <-> Forall (fun np => numel (snd np) = 0%N) named_parameters).
  { rewrite (proj1 (count_parameters_sums named_parameters)). cbn [snd].
    rewrite total_zero, Forall_map. reflexivity. }
  unfold print_trainable_parameters.
  destruct (count_parameters named_parameters) as [t a]. cbn [fst snd] in *.
  destruct (N.eqb_spec a 0) as [Ha|Ha].
  - split; [split; [intros _; now apply Hall | reflexivity]|].
    intros Hne. destruct Hne. now apply Hall.
  - split; [split; [discriminate | intros Hf; apply Hall in Hf; contradiction]|].
    intros _.
    exists (int_repr (Z.of_N a) +:+ " || trainable%: " +:+
            truediv_repr (100 * Z.of_N t) (Z.of_N a)).
    unfold print. now rewrite !append_assoc.
Qed.

(** *** Printing the predictions *)

Section PredictionsMore.
Context {RT : Runtime}.

Lemma print_predictions_from (all_preds : list (string * value)) (keys : list string) :
  (forall k, In k keys -> exists v, assoc k all_preds = Some v) ->
  forall stdout,
    fold_left
      (fun '(outcome, stdout) question_id =>
         match outcome with
         | Raise e => (Raise e, stdout)
         | OK _ =>
             match getitem_str (VDict all_preds) question_id with
             | OK prediction => (OK tt, print (py_str prediction) stdout)
             | Raise e => (Raise e, stdout)
             end
         end)
      keys (OK tt, stdout)
    = (OK tt,
       stdout +:+
       concat_all (map (fun k => match assoc k all_preds with
                                 | Some v => py_str v +:+ nl
                                 | None => EmptyString
                                 end) keys)).
Proof.
  induction keys as [|k keys IH]; intros Hkeys stdout; cbn [fold_left map].
  - cbn. now rewrite append_empty_r.
  - destruct (Hkeys k) as [v Hv]; [now left|].
    cbn [getitem_str]. rewrite Hv.
    rewrite IH by (intros k' Hk'; apply Hkeys; now right).
    unfold print. cbn [concat_all fold_right]. now rewrite !append_assoc.
Qed.

Lemma assoc_fresh {A : Type} (k : string) (d : list (string * A)) :
  ~ In k (map fst d) -> assoc k d = None.
Proof.
  intros Hk. destruct (assoc k d) as [v|] eqn:E; [|reflexivity].
  destruct Hk. exact (assoc_In k d v E).
Qed.

(** X18.  The loop that prints the predictions never raises, since every
    key it looks up comes from the dictionary itself; over distinct keys it
    prints each prediction once, followed by a line feed, in key order. *)
Theorem print_predictions_all (all_preds : list (string * value)) (stdout : string) :
  (exists stdout', QA.print_predictions all_preds stdout = (OK tt, stdout')) /\
  (NoDup (map fst all_preds) ->
   QA.print_predictions all_preds stdout
     = (OK tt,
        stdout +:+ concat_all (map (fun kv => py_str (snd kv) +:+ nl) all_preds))).
Proof.
  unfold QA.print_predictions.
  rewrite (print_predictions_from all_preds (map fst all_preds))
    by (intros k Hk; now apply In_assoc).
  split; [eauto|]. intros Hnd. do 2 f_equal. rewrite map_map.
  assert (Hsuffix : forall front back,
             all_preds = front ++ back ->
             map (fun kv => match assoc (fst kv) all_preds with
                            | Some v => py_str v +:+ nl
                            | None => EmptyString
                            end) back
             = map (fun kv => py_str (snd kv) +:+ nl) back).
  { intros front back. revert front.
    induction back as [|[k v] back IH]; intros front Hall; [reflexivity|].
    cbn [map fst snd]. rewrite (IH (front ++ [(k, v)]))
      by (now rewrite <- List.app_assoc).
    f_equal. subst all_preds. rewrite map_app in Hnd. cbn [map fst] in Hnd.
    apply NoDup_app in Hnd as (_ & Hnd & _).
    assert (Hfront : assoc k front = None).
    { apply assoc_fresh. intros Hin. apply list_elem_of_In in Hin.
      apply (Hnd k Hin). now left. }
    clear -Hfront. induction front as [|[k' v'] front IHf]; cbn [app assoc].
    - now rewrite String.eqb_refl.
    - cbn [assoc] in Hfront. destruct (String.eqb k' k); [discriminate|].
      now apply IHf. }
  now rewrite (Hsuffix [] all_preds eq_refl).
Qed.

End PredictionsMore.

(** *** The further properties on sample inputs *)

Import MoreSamples.

Lemma form_question_key_errors_witness :
  @form_question sample_runtime record_no_question = Raise (KeyError (VStr "QUESTION")).
Proof.
  refine (proj1 (@form_question_key_errors sample_runtime
                   [("CONTEXTS", VList [VStr "c1"]);
                    ("LABELS", VList [VStr "BACKGROUND"]);
                    ("reasoning_required_pred", VStr "yes")]) _).
  reflexivity.
Defined.

Lemma form_question_no_labels_witness :
  @form_question sample_runtime record_no_contexts
    = OK ("QUESTION:Is it?" +:+ nl +:+ "CONTEXT: " +:+
          "TARGET: the answer to the question given the context is (yes|no|maybe): ").
Proof.
  apply (@form_question_no_labels sample_runtime record_no_contexts
           (VStr "Is it?") (VList [])); reflexivity.
Defined.

Lemma form_question_shape_witness :
  exists question middle,
    getitem_str record_ok "QUESTION" = OK question /\
    prompt_ok = "QUESTION:" +:+ @py_str sample_runtime question +:+ nl +:+ "CONTEXT: " +:+
                middle +:+
                "TARGET: the answer to the question given the context is (yes|no|maybe): ".
Proof.
  apply (@form_question_shape sample_runtime record_ok prompt_ok). reflexivity.
Defined.

Lemma write_jsonl_replaces_witness :
  @write_jsonl sample_runtime "out.jsonl" objs_ok (files_with data_ok) !! "data.json"
    = files_with data_ok !! "data.json".
Proof.
  refine (proj2 (proj2 (@write_jsonl_replaces sample_runtime "out.jsonl" objs_ok
                          (files_with data_ok))) "data.json" _).
  discriminate.
Defined.

Lemma write_jsonl_lines_witness :
  exists text,
    @write_jsonl sample_runtime "out.jsonl" objs_ok ∅ !! "out.jsonl" = Some text /\
    file_lines text = map (@json_dumps sample_runtime) objs_ok /\
    length (file_lines text) = 2 /\
    (objs_ok = [] -> text = EmptyString).
Proof.
  apply (@write_jsonl_lines sample_runtime "out.jsonl" objs_ok ∅).
  exact sample_float_repr_one_line.
Defined.

Lemma convert_to_jsonl_load_errors_witness :
  @convert_to_jsonl sample_runtime "data.json" "out.jsonl" ∅ = (Raise FileNotFoundError, ∅).
Proof.
  refine (proj1 (@convert_to_jsonl_load_errors sample_runtime ∅ "data.json" "out.jsonl") _).
  reflexivity.
Defined.

Lemma convert_to_jsonl_empty_witness :
  @convert_to_jsonl runtime_with_empty "data.json" "out.jsonl" (files_with data_empty)
    = (OK [], <["out.jsonl" := EmptyString]> (files_with data_empty)) /\
  @convert_to_jsonl runtime_with_empty "data.json" "nodir/out.jsonl" (files_with data_empty)
    = (Raise FileNotFoundError, files_with data_empty).
Proof.
  split.
  - apply (@convert_to_jsonl_empty runtime_with_empty (files_with data_empty)
             "data.json" "out.jsonl" (@json_dumps base_runtime data_empty)).
    + reflexivity.
    + vm_compute. reflexivity.
  - apply (@convert_to_jsonl_empty runtime_with_empty (files_with data_empty)
             "data.json" "nodir/out.jsonl" (@json_dumps base_runtime data_empty)).
    + reflexivity.
    + vm_compute. reflexivity.
Defined.

Lemma convert_to_jsonl_returns_witness :
  exists entries,
    @load_json sample_runtime "data.json" (files_with data_ok) = OK (VDict entries) /\
    Forall2 (fun k o =>
               exists obj prompt completion,
                 assoc k entries = Some obj /\
                 @form_question sample_runtime obj = OK prompt /\
                 getitem_str obj "reasoning_required_pred" = OK completion /\
                 o = VDict [("input", VStr prompt); ("output", completion)])
            (map fst entries) objs_ok /\
    <["out.jsonl" := @jsonl_text sample_runtime objs_ok]> (files_with data_ok)
      = <["out.jsonl" := @jsonl_text sample_runtime objs_ok]> (files_with data_ok).
Proof.
  apply (@convert_to_jsonl_returns sample_runtime (files_with data_ok) _
           "data.json" "out.jsonl" objs_ok).
  vm_compute. reflexivity.
Defined.

Lemma convert_to_jsonl_first_failure_witness :
  @convert_to_jsonl sample_runtime "data.json" "out.jsonl" (files_with data_no_question)
    = (Raise (KeyError (VStr "QUESTION")), files_with data_no_question).
Proof.
  apply (@convert_to_jsonl_first_failure sample_runtime (files_with data_no_question)
           "data.json" "out.jsonl" [("101", record_ok); ("102", record_no_question)]
           ["101"] [] "102").
  - vm_compute. reflexivity.
  - reflexivity.
  - intros k' [<-|[]]. eexists. reflexivity.
  - reflexivity.
Defined.


Lemma convert_splits_feed_settings_witness :
  exists name,
    NemoCells.split_file_names NemoCells.data_settings "train_ds" = OK [VStr name] /\
    <["pubmedqa_val.jsonl" := @jsonl_text sample_runtime objs_ok]>
      (<["pubmedqa_train.jsonl" := @jsonl_text sample_runtime objs_ok]>
         (<["pubmedqa_test.jsonl" := @jsonl_text sample_runtime objs_ok]> split_files))
      !! name
    = Some (@jsonl_text sample_runtime objs_ok).
Proof.
  refine (proj1 (@convert_splits_feed_settings sample_runtime split_files _
                   objs_ok objs_ok objs_ok _)).
  vm_compute. reflexivity.
Defined.

Lemma generate_and_tokenize_prompt2_returned_witness :
  exists result : gmap string (list Z),
    @generate_and_tokenize_prompt2 sample_runtime char_tokenizer note_record = OK result.
Proof.
  apply (proj1 (@generate_and_tokenize_prompt2_returned sample_runtime char_tokenizer
                  note_record)).
  eexists (VStr "Woof"), _. split; [reflexivity|]. split; [reflexivity|].
  eexists. reflexivity.
Defined.

Lemma formatting_func_injective_witness : "Woof" = "Woof".
Proof.
  apply (@formatting_func_injective sample_runtime note_record
           (VDict [("note", VStr "Woof")]) "Woof" "Woof"); reflexivity.
Defined.

Lemma plot_data_lengths_counts_witness :
  exists calls,
    plot_data_lengths train_rows val_rows EmptyString = (OK calls, "3" +:+ nl) /\
    In (plt_hist [3; 2; 1] 20 (FloatLit 7 (-1)) "blue") calls.
Proof.
  apply (plot_data_lengths_counts train_rows val_rows EmptyString); reflexivity.
Defined.

Lemma plot_data_lengths_raises_witness :
  exists e, plot_data_lengths train_rows broken_rows "so far" = (Raise e, "so far").
Proof.
  apply (proj2 (plot_data_lengths_raises train_rows broken_rows "so far")). reflexivity.
Defined.

Lemma print_trainable_parameters_zero_witness :
  @print_trainable_parameters sample_division empty_parameters EmptyString
    = inl ZeroDivisionError.
Proof.
  apply (proj1 (@print_trainable_parameters_zero sample_division empty_parameters
                  EmptyString)).
  repeat constructor.
Defined.

Lemma print_predictions_all_witness :
  @QA.print_predictions sample_runtime sample_predictions EmptyString
    = (OK tt, "yes" +:+ nl +:+ "in 1999" +:+ nl).
Proof.
  apply (proj2 (@print_predictions_all sample_runtime sample_predictions EmptyString)).
  apply NoDup_cons_2; [|apply NoDup_singleton].
  intros Hin. apply list_elem_of_In in Hin. destruct Hin as [[=]|[]].
Defined.
